(** * Non-inferiority margin optimizer: a shallow embedding of [main.py]

    The program is a linear pipeline: pick a CSV file, load the [Dice]
    column, compute descriptive statistics, ask for two reference values,
    solve for the margin at which a one-sided one-sample test has p-value
    0.05, plot, and report.

    - Python floats are IEEE 754 binary64 numbers; they are modelled by
      Rocq's primitive floats, which are the same numbers with the same
      rounding.  Values that may be [None] have the type [value].
    - Exceptions are explicit: every fallible step returns a [result].
      Code with output returns the events it produced next to its result;
      an uncaught exception of [main] is the [Raise] its run ends with.
    - Formatted text is kept as its pieces, not rendered to characters.
    - The user and the file system are a [world] that each run reads.
    - scipy's [ttest_1samp] and [root_scalar] and matplotlib's [hist] are
      parameters of the program ([Section Program]); pandas' series methods
      are modelled from their description in the specification.  The
      [Dice] column is numeric, with NaN for a missing cell. *)

From Stdlib Require Import Floats ZArith List String Ascii Bool Lia Sorted Permutation.
Import ListNotations.

Set Warnings "-inexact-float".
Local Open Scope float_scope.

(** ** Python values and exceptions *)

(** The objects the program passes around: [None], an [int] literal, or a
    [float]. *)
Inductive value : Type :=
| VNone
| VInt (z : Z)
| VFloat (f : float).

(** The exception classes that occur; each carries its message. *)
Inductive exn : Type :=
| ValueError (msg : string)
| TypeError (msg : string)
| ZeroDivisionError (msg : string)
| RuntimeError (msg : string)
| KeyError (msg : string)
| OSError (msg : string)
| OverflowError (msg : string).

Inductive result (A : Type) : Type :=
| Ok (a : A)
| Raise (e : exn).
Arguments Ok {A} a.
Arguments Raise {A} e.

Definition is_ValueError (e : exn) : bool :=
  match e with ValueError _ => true | _ => false end.

(** [type(v).__name__], as it appears in a [TypeError] message. *)
Definition type_name (v : value) : string :=
  match v with
  | VNone => "NoneType"
  | VInt _ => "int"
  | VFloat _ => "float"
  end.

(** Conversion of a Python [int] to a float (round to nearest even). *)
Definition float_of_Z (z : Z) : float :=
  SF2Prim (binary_normalize prec emax z 0 false).

Definition float_of_nat (n : nat) : float := float_of_Z (Z.of_nat n).

(** The conversion as Python does it where an [int] meets a [float]: an
    [int] that rounds beyond the largest float (from [2^1024 - 2^970] on)
    is refused. *)
Definition float_of_int (z : Z) : result float :=
  let f := float_of_Z z in
  if is_infinity f then Raise (OverflowError "int too large to convert to float")
  else Ok f.

(** [r] continued by [k] when it is a value. *)
Definition and_then {A B} (r : result A) (k : A -> result B) : result B :=
  match r with
  | Ok a => k a
  | Raise e => Raise e
  end.

(** The quotient of two [int]s, correctly rounded; a quotient beyond the
    largest float is refused. *)
Definition int_true_divide (a b : Z) : result float :=
  let negative := xorb (a <? 0)%Z (b <? 0)%Z in
  match Z.abs a, Z.abs b with
  | _, Z0 => Raise (ZeroDivisionError "division by zero")
  | Zpos m1, Zpos m2 =>
      let '(q, e, l) := SFdiv_core_binary prec emax (Zpos m1) 0 (Zpos m2) 0 in
      let f := SF2Prim (binary_round_aux prec emax negative q e l) in
      if is_infinity f
      then Raise (OverflowError "integer division result too large for a float")
      else Ok f
  | _, _ => Ok (if negative then (-0)%float else 0%float)
  end.

Definition unsupported_operand (op : string) (a b : value) : exn :=
  TypeError ("unsupported operand type(s) for " ++ op ++ ": '" ++ type_name a
             ++ "' and '" ++ type_name b ++ "'").

(** [a - b] *)
Definition py_sub (a b : value) : result value :=
  match a, b with
  | VFloat x, VFloat y => Ok (VFloat (x - y))
  | VFloat x, VInt z => and_then (float_of_int z) (fun y => Ok (VFloat (x - y)))
  | VInt z, VFloat y => and_then (float_of_int z) (fun x => Ok (VFloat (x - y)))
  | VInt z, VInt z' => Ok (VInt (z - z'))
  | _, _ => Raise (unsupported_operand "-" a b)
  end.

(** [a * b] *)
Definition py_mul (a b : value) : result value :=
  match a, b with
  | VFloat x, VFloat y => Ok (VFloat (x * y))
  | VFloat x, VInt z => and_then (float_of_int z) (fun y => Ok (VFloat (x * y)))
  | VInt z, VFloat y => and_then (float_of_int z) (fun x => Ok (VFloat (x * y)))
  | VInt z, VInt z' => Ok (VInt (z * z'))
  | _, _ => Raise (unsupported_operand "*" a b)
  end.

(** [x / y] on two floats.  A zero divisor raises, also when it is the
    float [-0.0]; Python floats never divide to infinity. *)
Definition float_div (x y : float) : result value :=
  if y =? 0 then Raise (ZeroDivisionError "float division by zero")
  else Ok (VFloat (x / y)).

(** [a / b]: true division.  An [int] operand next to a float is
    converted first. *)
Definition py_truediv (a b : value) : result value :=
  match a, b with
  | VFloat x, VFloat y => float_div x y
  | VFloat x, VInt z => and_then (float_of_int z) (fun y => float_div x y)
  | VInt z, VFloat y => and_then (float_of_int z) (fun x => float_div x y)
  | VInt z, VInt z' => and_then (int_true_divide z z') (fun q => Ok (VFloat q))
  | _, _ => Raise (unsupported_operand "/" a b)
  end.

(** ** Formatted text

    An f-string is kept as the list of its pieces: the literal parts and
    the formatted fields.  A field [{v}] is [str(v)]; a field [{v:.2f}] is
    fixed-point formatting, which only numbers support. *)
Inductive piece : Type :=
| Lit (s : string)
| Str (v : value)
| StrExn (e : exn)
| Fix2 (f : float).

Definition text : Type := list piece.

Definition nl : string := String (ascii_of_nat 10) EmptyString.

(** [format(v, ".2f")] *)
Definition format_2f (v : value) : result piece :=
  match v with
  | VFloat f => Ok (Fix2 f)
  | VInt z => and_then (float_of_int z) (fun f => Ok (Fix2 f))
  | VNone => Raise (TypeError "unsupported format string passed to NoneType.__format__")
  end.

(** Evaluation of the fields of an f-string, left to right. *)
Fixpoint fstring (fields : list (result piece)) : result text :=
  match fields with
  | [] => Ok []
  | Ok p :: rest =>
      match fstring rest with
      | Ok t => Ok (p :: t)
      | Raise e => Raise e
      end
  | Raise e :: _ => Raise e
  end.

(** ** Events and the effect monad *)

Inductive alternative : Type := TwoSided | Less | Greater.

Inductive event : Type :=
| AskOpenFilename (title : string) (chosen : string)
| AskFloat (prompt : string) (initialvalue : float) (entered : value)
| ShowInfo (title : string) (message : text)
| ShowError (title : string) (message : text)
| Stdout (line : text)
| PlotHistogram (data : list float) (reference threshold : value) (metric : string).

(** A computation: the events it produced, and how it ended. *)
Definition M (A : Type) : Type := (list event * result A)%type.

Definition ret {A} (a : A) : M A := ([], Ok a).

Definition bind {A B} (m : M A) (k : A -> M B) : M B :=
  match m with
  | (t, Ok a) => let (t', r) := k a in (t ++ t', r)
  | (t, Raise e) => (t, Raise e)
  end.

Definition raise {A} (e : exn) : M A := ([], Raise e).

Definition emit (ev : event) : M unit := ([ev], Ok tt).

Definition lift {A} (r : result A) : M A := ([], r).

(** [try: body except C as e: handler e] *)
Definition try_except {A} (body : M A) (catches : exn -> bool) (handler : exn -> M A) : M A :=
  match body with
  | (t, Raise e) =>
      if catches e then let (t', r) := handler e in (t ++ t', r)
      else (t, Raise e)
  | (t, Ok a) => (t, Ok a)
  end.

Declare Scope py_scope.
Delimit Scope py_scope with py.
Notation "x <- m ;; k" := (bind m (fun x => k))
  (at level 61, m at next level, right associativity) : py_scope.
Notation "' pat <- m ;; k" := (bind m (fun x => match x with pat => k end))
  (at level 61, pat pattern, m at next level, right associativity) : py_scope.
Notation "m ;; k" := (bind m (fun _ => k))
  (at level 61, right associativity) : py_scope.

Definition trace {A} (m : M A) : list event := fst m.
Definition outcome {A} (m : M A) : result A := snd m.

(** ** The data frame and the pandas series methods *)

(** A loaded table: its columns by name; a missing cell is NaN. *)
Definition DataFrame : Type := list (string * list float).

(** ['name' in df.columns] *)
Definition has_column (name : string) (df : DataFrame) : bool :=
  existsb (fun c => String.eqb (fst c) name) df.

(** [df[name]] *)
Fixpoint column (name : string) (df : DataFrame) : result (list float) :=
  match df with
  | [] => Raise (KeyError name)
  | (n, c) :: rest => if String.eqb n name then Ok c else column name rest
  end.

(** [series.dropna()] *)
Definition dropna (s : list float) : list float :=
  filter (fun x => negb (is_nan x)) s.

Definition fsum (s : list float) : float := fold_left PrimFloat.add s 0.

Fixpoint insert_sorted (x : float) (s : list float) : list float :=
  match s with
  | [] => [x]
  | y :: rest => if x <=? y then x :: s else y :: insert_sorted x rest
  end.

Definition sort (s : list float) : list float := fold_right insert_sorted [] s.



(** The integer part of a non-negative finite float. *)
Definition floor_nat (x : float) : nat :=
  match Prim2SF x with
  | S754_finite false m e =>
      Z.to_nat (if (0 <=? e)%Z then Z.pos m * 2 ^ e else Z.pos m / 2 ^ (- e))
  | _ => 0%nat
  end.

(** Modelled from the spec: pandas' [Series.mean] is not part of the
    repository; section 4.1 names it the arithmetic mean (NaN on an empty
    series). *)
Definition Series_mean (s : list float) : float :=
  fsum s / float_of_nat (List.length s).

(** Modelled from the spec: pandas' [Series.std] is not part of the
    repository; section 4.1 names it the sample standard deviation, with
    denominator n-1. *)
Definition Series_std (s : list float) : float :=
  let m := Series_mean s in
  sqrt (fsum (map (fun x => (x - m) * (x - m)) s) / float_of_nat (List.length s - 1)).

(** Modelled from the spec: pandas' [Series.quantile] is not part of the
    repository; section 4.1 names it the linearly interpolated percentile:
    position [q * (n-1)] in the sorted sample, interpolating between the two
    neighbours. *)
Definition Series_quantile (s : list float) (q : float) : float :=
  match s with
  | [] => nan
  | _ =>
      let sorted := sort s in
      let pos := q * float_of_nat (List.length s - 1) in
      let lo := floor_nat pos in
      let frac := pos - float_of_nat lo in
      let a := nth lo sorted nan in
      let b := nth (Nat.min (S lo) (List.length s - 1)) sorted nan in
      a + (b - a) * frac
  end.

(** Modelled from the spec: pandas' [Series.median] is not part of the
    repository; the median is the middle of the sorted sample, the mean of
    the two middle values when their number is even. *)
Definition Series_median (s : list float) : float :=
  match s with
  | [] => nan
  | _ =>
      let sorted := sort s in
      let n := List.length s in
      if Nat.odd n then nth (n / 2) sorted nan
      else (nth (n / 2 - 1) sorted nan + nth (n / 2) sorted nan) / 2
  end.

(** ** [calculate_statistics] (lines 20-27) *)

Definition calculate_statistics (data : list float)
  : float * float * float * float * float * float :=
  let mean := Series_mean data in
  let std := Series_std data in
  let median := Series_median data in
  let q1 := Series_quantile data 0.25 in
  let q3 := Series_quantile data 0.75 in
  let iqr := q3 - q1 in
  (mean, std, median, q1, q3, iqr).

(** ** The environment of one run

    What the user and the file system answer: the path chosen in the file
    dialog (empty when the dialog is cancelled), the table [pandas.read_csv]
    loads from a path (or the exception it raises), and the number entered
    in a numeric prompt, which may depend on the prompt and on the value it
    is pre-filled with ([None] when the prompt is cancelled). *)
Record world : Type := {
  askopenfilename : string;
  read_csv : string -> result DataFrame;
  askfloat : string -> float -> option float
}.

Definition optional (o : option float) : value :=
  match o with
  | Some f => VFloat f
  | None => VNone
  end.

Definition is_not_None (v : value) : bool :=
  match v with VNone => false | _ => true end.

(** [float(v)], for a numeric argument of a library call. *)
Definition as_double (v : value) : result float :=
  match v with
  | VFloat f => Ok f
  | VInt z => float_of_int z
  | VNone => Raise (TypeError "float() argument must be a string or a real number, not 'NoneType'")
  end.

Local Open Scope py_scope.
Local Open Scope string_scope.

(** [select_file] (lines 8-12) *)
Definition select_file (w : world) : M string :=
  let file_path := askopenfilename w in
  emit (AskOpenFilename "Select CSV File" file_path) ;;
  ret file_path.

(** [prompt_for_value] (lines 14-18) *)
Definition prompt_for_value (w : world) (prompt : string) (default_value : float) : M value :=
  let value := optional (askfloat w prompt default_value) in
  emit (AskFloat prompt default_value value) ;;
  ret value.

(** One of the two numbers is negative and the other positive. *)
Definition opposite_signs (a b : float) : bool :=
  ((a <? 0) && (0 <? b) || (0 <? a) && (b <? 0))%float.

Definition no_sign_change : string :=
  "Function does not change signs within the interval [0, 1]".

(** The verdict field of the report (line 121):
    ['Pass' if p_value_p is not None and p_value_p < 0.05 else 'Fail'].
    An [int] is compared with a float exactly: it is below 0.05 when it is
    not positive. *)
Definition verdict (p_value_p : value) : string :=
  match p_value_p with
  | VNone => "Fail"
  | VInt z => if (z <=? 0)%Z then "Pass" else "Fail"
  | VFloat p => if (p <? 0.05)%float then "Pass" else "Fail"
  end.

(** The f-string [result_message] of [main] (lines 110-122), field by
    field. *)
Definition result_message (mean std median iqr : float)
    (reference_median reference_mean non_inferiority_margin_p
     non_inferiority_percentage_p test_statistic_p p_value_p : value) : result text :=
  fstring
    [ Ok (Lit "Calculated Mean: "); Ok (Str (VFloat mean)); Ok (Lit nl);
      Ok (Lit "Calculated SD: "); Ok (Str (VFloat std)); Ok (Lit nl);
      Ok (Lit "Calculated Median: "); Ok (Str (VFloat median)); Ok (Lit nl);
      Ok (Lit "Calculated IQR: "); Ok (Str (VFloat iqr)); Ok (Lit nl); Ok (Lit nl);
      Ok (Lit "Reference Median: "); Ok (Str reference_median); Ok (Lit nl);
      Ok (Lit "Parametric Test:"); Ok (Lit nl);
      Ok (Lit "Reference Mean: "); Ok (Str reference_mean); Ok (Lit nl);
      Ok (Lit "Non-Inferiority Margin: "); Ok (Str non_inferiority_margin_p);
      Ok (Lit " ("); format_2f non_inferiority_percentage_p; Ok (Lit "% of mean)"); Ok (Lit nl);
      Ok (Lit "Test Statistic: "); Ok (Str test_statistic_p); Ok (Lit nl);
      Ok (Lit "P-Value: "); Ok (Str p_value_p); Ok (Lit nl);
      Ok (Lit "Non-Inferiority Test Result: "); Ok (Lit (verdict p_value_p)) ].

(** ** Reference instances of the library routines

    Concrete routines to run the program on: a Student's t test for samples
    of three observations, where the survival function has a closed form,
    Brent's root finder with scipy's default tolerances, and a histogram
    that refuses a sample whose range is not finite. *)
Module Reference.

(** The survival function of Student's distribution with two degrees of
    freedom: [1/2 - t / (2 sqrt (2 + t^2))]. *)
Definition survival2 (t : float) : float := (0.5 - t / (2 * sqrt (2 + t * t)))%float.

(** Modelled from the spec: scipy's [ttest_1samp] is not part of the
    repository; section 4.2 describes it as Student's one-sample t test
    with n-1 degrees of freedom, on the sample's mean and standard error:
    [t = (mean - popmean) / (std / sqrt n)].  This instance covers samples
    of three observations (two degrees of freedom) and gives NaN for the
    p-value of any other sample. *)
Definition ttest_1samp (data : list float) (popmean : float) (alt : alternative)
  : float * float :=
  let n := List.length data in
  let t := ((Series_mean data - popmean) / (Series_std data / sqrt (float_of_nat n)))%float in
  if Nat.eqb n 3 then
    match alt with
    | Greater => (t, survival2 t)
    | Less => (t, (1 - survival2 t)%float)
    | TwoSided => (t, (2 * survival2 (abs t))%float)
    end
  else (t, nan).


(** The default tolerances and iteration bound of scipy's [brentq]. *)
Definition xtol : float := 2e-12%float.
Definition rtol : float := 8.881784197001252e-16%float.
Definition maxiter : nat := 100.

(** How a search ended: it converged, it used up its rounds, or the
    function value was NaN. *)
Inductive termination : Type := Converged | ConvergenceError | ValueIsNaN.

(** What [root_scalar] returns: the root, and the cause of
    termination. *)
Record RootResults : Type := {
  root : float;
  flag : termination
}.


Record brent_state : Type := {
  xpre : float; xcur : float; xblk : float;
  fpre : float; fcur : float; fblk : float;
  spre : float; scur : float
}.

Definition fmin (a b : float) : float := if (a <? b)%float then a else b.

(** The callback of the solver.  A NaN value ends the search: the point
    where it occurred is reported as the root, with its own flag. *)
Definition call (f : float -> M float) (x : float) (k : float -> M RootResults)
  : M RootResults :=
  y <- f x ;;
  if is_nan y then ret {| root := x; flag := ValueIsNaN |} else k y.

(** When the last two points have values of opposite signs they become
    the bracket.  No value is NaN here, so the sign bits differ exactly
    when one value is negative and the other positive. *)
Definition rebracket (s : brent_state) : brent_state :=
  if opposite_signs (fpre s) (fcur s)
  then {| xpre := xpre s; xcur := xcur s; xblk := xpre s;
          fpre := fpre s; fcur := fcur s; fblk := fpre s;
          spre := (xcur s - xpre s)%float; scur := (xcur s - xpre s)%float |}
  else s.

(** The end of the bracket with the smaller value becomes the current
    point. *)
Definition order (s : brent_state) : brent_state :=
  if (abs (fblk s) <? abs (fcur s))%float
  then {| xpre := xcur s; xcur := xblk s; xblk := xcur s;
          fpre := fcur s; fcur := fblk s; fblk := fcur s;
          spre := spre s; scur := scur s |}
  else s.

(** Half the tolerance at the current point, and half the bracket. *)
Definition delta (s : brent_state) : float := ((xtol + rtol * abs (xcur s)) / 2)%float.
Definition sbis (s : brent_state) : float := ((xblk s - xcur s) / 2)%float.

(** The next two step lengths: an interpolation step when it is short
    enough, a bisection step otherwise. *)
Definition steps (s : brent_state) : float * float :=
  if (delta s <? abs (spre s))%float && (abs (fcur s) <? abs (fpre s))%float then
    let stry :=
      if (xpre s =? xblk s)%float
      then (- fcur s * (xcur s - xpre s) / (fcur s - fpre s))%float
      else
        let dpre := ((fpre s - fcur s) / (xpre s - xcur s))%float in
        let dblk := ((fblk s - fcur s) / (xblk s - xcur s))%float in
        (- fcur s * (fblk s * dblk - fpre s * dpre)
         / (dblk * dpre * (fblk s - fpre s)))%float in
    if (2 * abs stry <? fmin (abs (spre s)) (3 * abs (sbis s) - delta s))%float
    then (scur s, stry)
    else (sbis s, sbis s)
  else (sbis s, sbis s).

(** The next point: a step of at least [delta] towards the other end. *)
Definition advance (s : brent_state) (step : float) : float :=
  if (delta s <? abs step)%float then (xcur s + step)%float
  else (xcur s + (if (0 <? sbis s)%float then delta s else - delta s))%float.

(** The rounds of Brent's method: re-bracket, order the two ends, test
    for convergence, step.  After [fuel] rounds the current point is
    returned as it is. *)
Fixpoint brent_loop (f : float -> M float) (fuel : nat) (s : brent_state)
  : M RootResults :=
  match fuel with
  | O => ret {| root := xcur s; flag := ConvergenceError |}
  | S fuel' =>
      let s2 := order (rebracket s) in
      if (fcur s2 =? 0)%float || (abs (sbis s2) <? delta s2)%float
      then ret {| root := xcur s2; flag := Converged |}
      else
        let '(spre', scur') := steps s2 in
        let xnext := advance s2 scur' in
        call f xnext (fun fnext =>
          brent_loop f fuel'
            {| xpre := xcur s2; xcur := xnext; xblk := xblk s2;
               fpre := fcur s2; fcur := fnext; fblk := fblk s2;
               spre := spre'; scur := scur' |})
  end.

(** Modelled from the spec: scipy's [root_scalar] is not part of the
    repository; section 4.3 names Brent's method, with its default
    tolerance, as the bracketed root finder.  This is
    [root_scalar(f, bracket=[a, b], method='brentq')]: an end point where
    [f] vanishes is returned at once, end points whose values do not have
    opposite signs are refused with a ValueError, and a search that has
    not converged after [maxiter] rounds returns its current point,
    flagged as a convergence error, without raising. *)
Definition root_scalar (f : float -> M float) (a b : float) : M RootResults :=
  call f a (fun fa =>
  call f b (fun fb =>
    if (fa =? 0)%float then ret {| root := a; flag := Converged |}
    else if (fb =? 0)%float then ret {| root := b; flag := Converged |}
    else if negb (opposite_signs fa fb)
    then raise (ValueError "f(a) and f(b) must have different signs")
    else brent_loop f maxiter
           {| xpre := a; xcur := b; xblk := 0%float;
              fpre := fa; fcur := fb; fblk := 0%float;
              spre := 0%float; scur := 0%float |})).

(** [root_scalar(f, bracket=[a, b], method='brentq').root] *)
Definition root_scalar_brentq (f : float -> M float) (a b : float) : M float :=
  r <- root_scalar f a b ;;
  ret (root r).

(** Modelled from the spec: matplotlib's [hist] is not part of the
    repository; section 4.4 describes 30 equal-width bins over the range
    of the sample.  A range that is not finite cannot be cut into bins:
    the call ends with a ValueError (whose message, which names the
    range, is shortened here).  Every other sample is drawn. *)
Definition hist (data : list float) : result unit :=
  if forallb is_finite data then Ok tt
  else Raise (ValueError "supplied range is not finite").

(** A table with a [Dice] column holding [sample]. *)
Definition dice_table (sample : list float) : DataFrame :=
  [("Case", [1; 2; 3]%float); ("Dice", sample)].

(** A run on a file whose [Dice] column holds [sample], where the user
    keeps the proposed reference median and enters [reference_mean]. *)
Definition a_world (sample : list float) (reference_mean : option float) : world :=
  {| askopenfilename := "dice.csv";
     read_csv := fun path =>
       if String.eqb path "dice.csv" then Ok (dice_table sample)
       else Raise (OSError "No such file or directory");
     askfloat := fun prompt initialvalue =>
       if String.eqb prompt "Enter the reference mean value:"
       then reference_mean else Some initialvalue |}.

(** The same sample and answers in another environment: every path holds
    the table, and prompts other than the two of the program are
    cancelled. *)
Definition same_answers_world (sample : list float) (reference_mean : option float) : world :=
  {| askopenfilename := "dice.csv";
     read_csv := fun _ => Ok (dice_table sample);
     askfloat := fun prompt initialvalue =>
       if String.eqb prompt "Enter the reference mean value:" then reference_mean
       else if String.eqb prompt "Enter the reference median value:" then Some initialvalue
       else None |}.

(** Three observations of the Dice coefficient. *)
Definition three_dice : list float := [0.80; 0.85; 0.90]%float.

(** The user cancels the file dialog. *)
Definition cancelled_world : world :=
  {| askopenfilename := EmptyString;
     read_csv := fun _ => Raise (OSError "No such file or directory");
     askfloat := fun _ _ => None |}.

(** The chosen file has no [Dice] column. *)
Definition no_dice_world : world :=
  {| askopenfilename := "scores.csv";
     read_csv := fun _ => Ok [("Case", [1; 2; 3]%float); ("Jaccard", [0.7; 0.8; 0.9]%float)];
     askfloat := fun _ _ => None |}.

(** The chosen file cannot be read. *)
Definition unreadable_world : world :=
  {| askopenfilename := "missing.csv";
     read_csv := fun _ => Raise (OSError "No such file or directory");
     askfloat := fun _ _ => None |}.

(** As [a_world], but the user cancels the reference-median prompt. *)
Definition no_median_world (sample : list float) (reference_mean : option float) : world :=
  {| askopenfilename := "dice.csv";
     read_csv := fun path =>
       if String.eqb path "dice.csv" then Ok (dice_table sample)
       else Raise (OSError "No such file or directory");
     askfloat := fun prompt initialvalue =>
       if String.eqb prompt "Enter the reference mean value:"
       then reference_mean else None |}.

(** Three observations, one of them infinite. *)
Definition infinite_dice : list float := [0.80; infinity; 0.90]%float.

(** Three observations with a missing cell between them. *)
Definition dice_with_gap : list float := [0.80; nan; 0.85; 0.90]%float.

(** A root finder that raises when it does not converge, as [brentq]
    does when it is called on its own. *)
Definition gives_up (f : float -> M float) (a b : float) : M float :=
  raise (RuntimeError "Failed to converge after 100 iterations.").

End Reference.

Section Program.

(** The library routines the program calls: two numerical routines of
    scipy, and the histogram of matplotlib.  They are not part of the
    repository; the program is verified for every behaviour they may have.

    [ttest_1samp data popmean alternative] is
    [scipy.stats.ttest_1samp(data, popmean, alternative=...)], the pair
    (statistic, p-value).

    [root_scalar_brentq f a b] is the [root] of
    [scipy.optimize.root_scalar(f, bracket=[a, b], method='brentq')], or
    the exception the call ends with. *)
Variable ttest_1samp : list float -> float -> alternative -> float * float.
Variable root_scalar_brentq : (float -> M float) -> float -> float -> M float.

(** [hist data] is how [plt.hist(data, bins=30, ...)] of matplotlib ends on
    the sample: it draws, or it raises. *)
Variable hist : list float -> result unit.

(** [plot_data] (lines 52-62): the histogram of the sample (line 54), then
    its two markers, the reference value and the reference value minus the
    margin (lines 55-56); the figure is shown at the end (line 62). *)
Definition plot_data (data : list float) (reference_value non_inferiority_margin : value)
    (metric : string) : M unit :=
  lift (hist data) ;;
  threshold <- lift (py_sub reference_value non_inferiority_margin) ;;
  emit (PlotHistogram data reference_value threshold metric).

(** [perform_non_inferiority_test_parametric] (lines 29-32) *)
Definition perform_non_inferiority_test_parametric (data : list float)
    (reference_mean non_inferiority_margin : value) : M (float * float) :=
  threshold <- lift (py_sub reference_mean non_inferiority_margin) ;;
  popmean <- lift (as_double threshold) ;;
  let '(test_statistic, p_value) := ttest_1samp data popmean Greater in
  ret (test_statistic, p_value).

(** [objective_function], the inner function of
    [find_non_inferiority_margin] (lines 35-37). *)
Definition objective_function (data : list float) (reference_value : value)
    (test_function : list float -> value -> value -> M (float * float))
    (margin : value) : M float :=
  '(_, p_value) <- test_function data reference_value margin ;;
  ret (p_value - 0.05)%float.

(** The diagnostic loop (lines 40-41): one printed line per margin. *)
Fixpoint print_objective (objective : value -> M float) (margins : list value) : M unit :=
  match margins with
  | [] => ret tt
  | margin :: rest =>
      v <- objective margin ;;
      emit (Stdout [Lit "Objective function at "; Str margin; Lit ": "; Str (VFloat v)]) ;;
      print_objective objective rest
  end.

(** [find_non_inferiority_margin] (lines 34-50).  The margins 0 and 1 of
    the sign check are the [int] literals of the source. *)
Definition find_non_inferiority_margin (data : list float) (reference_value : value)
    (test_function : list float -> value -> value -> M (float * float)) : M float :=
  let objective := objective_function data reference_value test_function in
  print_objective objective
    [VInt 0; VFloat 0.25; VFloat 0.5; VFloat 0.75; VFloat 1.0] ;;
  f_start <- objective (VInt 0) ;;
  f_end <- objective (VInt 1) ;;
  if (0 <? f_start * f_end)%float then raise (ValueError no_sign_change)
  else root_scalar_brentq (fun x => objective (VFloat x)) 0%float 1%float.

(** [main] (lines 64-125).  A [return] inside an [if] is the end of that
    branch; the rest of the function is the [else] branch. *)
Definition main (w : world) : M unit :=
  file_path <- select_file w ;;
  if String.eqb file_path EmptyString then
    emit (ShowInfo "Information" [Lit "No file selected. Exiting."])
  else
    df <- lift (read_csv w file_path) ;;
    if negb (has_column "Dice" df) then
      emit (ShowError "Error" [Lit "'Dice' column not found in the selected file. Exiting."])
    else
      series <- lift (column "Dice" df) ;;
      let dice_data := dropna series in
      let '(mean, std, median, q1, q3, iqr) := calculate_statistics dice_data in
      reference_median <- prompt_for_value w "Enter the reference median value:" median ;;
      reference_mean <- prompt_for_value w "Enter the reference mean value:" mean ;;
      '(non_inferiority_margin_p, non_inferiority_percentage_p) <-
        try_except
          (non_inferiority_margin_p <-
             find_non_inferiority_margin dice_data reference_mean
               perform_non_inferiority_test_parametric ;;
           quotient <- lift (py_truediv (VFloat non_inferiority_margin_p) reference_mean) ;;
           non_inferiority_percentage_p <- lift (py_mul quotient (VInt 100)) ;;
           ret (VFloat non_inferiority_margin_p, non_inferiority_percentage_p))
          is_ValueError
          (fun e =>
             emit (Stdout [Lit "Failed to find non-inferiority margin for parametric test: ";
                           StrExn e]) ;;
             ret (VNone, VNone)) ;;
      (if is_not_None non_inferiority_margin_p
       then plot_data dice_data reference_mean non_inferiority_margin_p "Mean"
       else ret tt) ;;
      '(test_statistic_p, p_value_p) <-
        (if is_not_None non_inferiority_margin_p
         then '(t, p) <- perform_non_inferiority_test_parametric dice_data reference_mean
                           non_inferiority_margin_p ;;
              ret (VFloat t, VFloat p)
         else ret (VNone, VNone)) ;;
      message <- lift (result_message mean std median iqr reference_median reference_mean
                         non_inferiority_margin_p non_inferiority_percentage_p
                         test_statistic_p p_value_p) ;;
      emit (ShowInfo "Non-Inferiority Test Result" message) ;;
      emit (Stdout message).

(** *** Parts of [main], named for the proofs

    [main_run] below shows that [main] is these parts put together. *)

(** Step 4 of [main] (lines 90-96): the [try] statement and its handler. *)
Definition solve_margin (dice_data : list float) (reference_mean : value) : M (value * value) :=
  try_except
    (non_inferiority_margin_p <-
       find_non_inferiority_margin dice_data reference_mean
         perform_non_inferiority_test_parametric ;;
     quotient <- lift (py_truediv (VFloat non_inferiority_margin_p) reference_mean) ;;
     non_inferiority_percentage_p <- lift (py_mul quotient (VInt 100)) ;;
     ret (VFloat non_inferiority_margin_p, non_inferiority_percentage_p))
    is_ValueError
    (fun e =>
       emit (Stdout [Lit "Failed to find non-inferiority margin for parametric test: ";
                     StrExn e]) ;;
       ret (VNone, VNone)).

(** The rest of [main] (lines 98-125): the plot, the test at the margin
    found, and the report. *)
Definition report (dice_data : list float) (mean std median iqr : float)
    (reference_median reference_mean : value)
    (non_inferiority_margin_p non_inferiority_percentage_p : value) : M unit :=
  (if is_not_None non_inferiority_margin_p
   then plot_data dice_data reference_mean non_inferiority_margin_p "Mean"
   else ret tt) ;;
  '(test_statistic_p, p_value_p) <-
    (if is_not_None non_inferiority_margin_p
     then '(t, p) <- perform_non_inferiority_test_parametric dice_data reference_mean
                       non_inferiority_margin_p ;;
          ret (VFloat t, VFloat p)
     else ret (VNone, VNone)) ;;
  message <- lift (result_message mean std median iqr reference_median reference_mean
                     non_inferiority_margin_p non_inferiority_percentage_p
                     test_statistic_p p_value_p) ;;
  emit (ShowInfo "Non-Inferiority Test Result" message) ;;
  emit (Stdout message).

(** Lines 82-125 of [main], once the sample is extracted. *)
Definition analyse (w : world) (dice_data : list float) : M unit :=
  let '(mean, std, median, q1, q3, iqr) := calculate_statistics dice_data in
  reference_median <- prompt_for_value w "Enter the reference median value:" median ;;
  reference_mean <- prompt_for_value w "Enter the reference mean value:" mean ;;
  '(non_inferiority_margin_p, non_inferiority_percentage_p) <-
    solve_margin dice_data reference_mean ;;
  report dice_data mean std median iqr reference_median reference_mean
    non_inferiority_margin_p non_inferiority_percentage_p.

(** A test function that, on this sample and reference value, neither
    raises nor prints: at a numeric margin [m] it returns the statistic
    [stat m] and the p-value [pval m]. *)
Definition pure_test (data : list float) (reference_value : value)
    (test_function : list float -> value -> value -> M (float * float))
    (stat pval : float -> float) : Prop :=
  forall margin m, as_double margin = Ok m ->
    test_function data reference_value margin = ret (stat m, pval m).

(** The five lines the diagnostic loop prints for an objective [f]. *)
Definition diagnostics (f : float -> float) : list event :=
  [ Stdout [Lit "Objective function at "; Str (VInt 0); Lit ": "; Str (VFloat (f 0%float))];
    Stdout [Lit "Objective function at "; Str (VFloat 0.25); Lit ": "; Str (VFloat (f 0.25%float))];
    Stdout [Lit "Objective function at "; Str (VFloat 0.5); Lit ": "; Str (VFloat (f 0.5%float))];
    Stdout [Lit "Objective function at "; Str (VFloat 0.75); Lit ": "; Str (VFloat (f 0.75%float))];
    Stdout [Lit "Objective function at "; Str (VFloat 1); Lit ": "; Str (VFloat (f 1%float))] ].





(** The float 0.05 as sign, mantissa and exponent. *)
Definition SFthreshold : spec_float := S754_finite false 7205759403792794 (-57).

Definition SFpositive (x : spec_float) : bool := SFltb (S754_zero false) x.
Definition SFnegative (x : spec_float) : bool := SFltb x (S754_zero false).

(** Both numbers are positive or both are negative. *)
Definition same_sign (x y : float) : bool :=
  ((0 <? x) && (0 <? y) || (x <? 0) && (y <? 0))%float.

(** The line the handler of [main] prints. *)
Definition failure_line (e : exn) : event :=
  Stdout [Lit "Failed to find non-inferiority margin for parametric test: "; StrExn e].

Definition median_prompt : string := "Enter the reference median value:".
Definition mean_prompt : string := "Enter the reference mean value:".

(** ** Facts about the effect monad *)

Lemma bind_Ok {A B} (t : list event) (a : A) (k : A -> M B) :
  bind (t, Ok a) k = ((t ++ trace (k a))%list, outcome (k a)).
Proof. unfold bind, trace, outcome. destruct (k a); reflexivity. Qed.

Lemma bind_Raise {A B} (t : list event) (e : exn) (k : A -> M B) :
  bind (t, Raise e) k = (t, Raise e).
Proof. reflexivity. Qed.

Lemma bind_ret {A B} (a : A) (k : A -> M B) : bind (ret a) k = k a.
Proof. unfold ret. rewrite bind_Ok. destruct (k a); reflexivity. Qed.

Lemma bind_emit {B} (ev : event) (k : unit -> M B) :
  bind (emit ev) k = (ev :: trace (k tt), outcome (k tt)).
Proof. unfold emit. rewrite bind_Ok. reflexivity. Qed.

Lemma bind_lift_Ok {A B} (a : A) (k : A -> M B) : bind (lift (Ok a)) k = k a.
Proof. apply bind_ret. Qed.

Lemma bind_lift_Raise {A B} (e : exn) (k : A -> M B) :
  bind (lift (Raise e)) k = ([], Raise e).
Proof. reflexivity. Qed.

Lemma select_file_run (w : world) :
  select_file w
  = ([AskOpenFilename "Select CSV File" (askopenfilename w)], Ok (askopenfilename w)).
Proof. reflexivity. Qed.

Lemma prompt_for_value_run (w : world) (prompt : string) (default_value : float) :
  prompt_for_value w prompt default_value
  = ([AskFloat prompt default_value (optional (askfloat w prompt default_value))],
     Ok (optional (askfloat w prompt default_value))).
Proof. reflexivity. Qed.

(** ** The hypothesis test *)

Lemma perform_run (data : list float) (r : float) (margin : value) (m : float) :
  as_double margin = Ok m ->
  perform_non_inferiority_test_parametric data (VFloat r) margin
  = ret (ttest_1samp data (r - m)%float Greater).
Proof.
  intros H. unfold perform_non_inferiority_test_parametric.
  assert (E : py_sub (VFloat r) margin = Ok (VFloat (r - m)%float)).
  { destruct margin as [|z|x]; cbn [as_double] in H.
    - discriminate H.
    - unfold py_sub. rewrite H. reflexivity.
    - inversion H. reflexivity. }
  rewrite E, bind_lift_Ok. cbn [as_double]. rewrite bind_lift_Ok.
  destruct (ttest_1samp data _ Greater); reflexivity.
Qed.

Lemma perform_overflow (data : list float) (r : float) (z : Z) (e : exn) :
  float_of_int z = Raise e ->
  perform_non_inferiority_test_parametric data (VFloat r) (VInt z) = ([], Raise e).
Proof.
  intros H. unfold perform_non_inferiority_test_parametric, py_sub.
  rewrite H. reflexivity.
Qed.

(** C4: for every sample, float reference mean [r] and numeric margin [m],
    [perform_non_inferiority_test_parametric] computes the threshold
    [r - m] and returns, unchanged and in this order, the statistic and
    the p-value of [ttest_1samp] on the sample against that threshold
    with the alternative 'greater'.  An int margin is converted to a
    float first, as for the solver's end points 0 and 1; an int too large
    for a float ([10^400], say) makes the subtraction raise OverflowError,
    and no test is run. *)
Theorem perform_is_one_sided_ttest (data : list float) (r : float) :
  (forall m : float,
      perform_non_inferiority_test_parametric data (VFloat r) (VFloat m)
      = ([], Ok (ttest_1samp data (r - m)%float Greater)))
  /\ (forall (z : Z) (m : float),
      float_of_int z = Ok m ->
      perform_non_inferiority_test_parametric data (VFloat r) (VInt z)
      = ([], Ok (ttest_1samp data (r - m)%float Greater)))
  /\ (forall (z : Z) (e : exn),
      float_of_int z = Raise e ->
      perform_non_inferiority_test_parametric data (VFloat r) (VInt z) = ([], Raise e))
  /\ float_of_int 0 = Ok 0%float
  /\ float_of_int 1 = Ok 1%float
  /\ float_of_int (10 ^ 400) = Raise (OverflowError "int too large to convert to float").
Proof.
  split; [|split; [|split; [|repeat split]]].
  - intros m. apply (perform_run data r (VFloat m) m). reflexivity.
  - intros z m H. apply (perform_run data r (VInt z) m). exact H.
  - intros z e H. apply (perform_overflow data r z e H).
Qed.

(** ** The report *)

Lemma report_with_margin (data : list float) (mean std median iqr : float)
    (reference_median : value) (r m percentage : float) :
  hist data = Ok tt ->
  let tp := ttest_1samp data (r - m)%float Greater in
  exists message,
    result_message mean std median iqr reference_median (VFloat r) (VFloat m)
      (VFloat percentage) (VFloat (fst tp)) (VFloat (snd tp)) = Ok message
    /\ report data mean std median iqr reference_median (VFloat r) (VFloat m)
         (VFloat percentage)
       = ([PlotHistogram data (VFloat r) (VFloat (r - m)%float) "Mean";
           ShowInfo "Non-Inferiority Test Result" message;
           Stdout message], Ok tt)
    /\ last message (Lit EmptyString) = Lit (verdict (VFloat (snd tp))).
Proof.
  intros Hhist tp. subst tp.
  assert (Hf := perform_run data r (VFloat m) m eq_refl).
  destruct (ttest_1samp data (r - m)%float Greater) as [t p]. simpl fst; simpl snd.
  eexists. split; [|split].
  - unfold result_message, format_2f. simpl fstring. reflexivity.
  - unfold report, plot_data. simpl is_not_None. cbv iota.
    rewrite Hhist, bind_lift_Ok.
    simpl py_sub. rewrite bind_lift_Ok, bind_emit, Hf, !bind_ret.
    unfold result_message, format_2f. simpl fstring.
    rewrite bind_lift_Ok. reflexivity.
  - reflexivity.
Qed.

(** An exception of the histogram ends [report] before anything is
    drawn or shown. *)
Lemma report_plot_raises (data : list float) (mean std median iqr : float)
    (reference_median reference_mean : value) (m : float) (percentage : value) (e : exn) :
  hist data = Raise e ->
  report data mean std median iqr reference_median reference_mean (VFloat m) percentage
  = ([], Raise e).
Proof.
  intros Hhist. unfold report, plot_data. simpl is_not_None. cbv iota.
  rewrite Hhist. reflexivity.
Qed.

Lemma verdict_Pass (p : float) : verdict (VFloat p) = "Pass" <-> (p <? 0.05)%float = true.
Proof. simpl. destruct (p <? 0.05)%float; split; reflexivity || discriminate. Qed.

Lemma verdict_Fail (p : float) : verdict (VFloat p) = "Fail" <-> (p <? 0.05)%float = false.
Proof. simpl. destruct (p <? 0.05)%float; split; reflexivity || discriminate. Qed.

(** ** Descriptive statistics *)











(** ** The two guarded exits of [main] *)

(** C9: when the file dialog returns no path, [main] shows one
    information box and returns; when the loaded table has no column
    named [Dice], it shows one error box and returns.  In both runs
    nothing else happens: no prompt, no solver output, no plot, no
    report, and no exception. *)
Theorem main_early_exits (w : world) :
  (askopenfilename w = EmptyString ->
   main w = ([AskOpenFilename "Select CSV File" EmptyString;
              ShowInfo "Information" [Lit "No file selected. Exiting."]], Ok tt))
  /\ (forall df,
         askopenfilename w <> EmptyString ->
         read_csv w (askopenfilename w) = Ok df ->
         has_column "Dice" df = false ->
         main w = ([AskOpenFilename "Select CSV File" (askopenfilename w);
                    ShowError "Error"
                      [Lit "'Dice' column not found in the selected file. Exiting."]],
                   Ok tt)).
Proof.
  split.
  - intros H. unfold main, select_file. rewrite H. reflexivity.
  - intros df Hpath Hread Hcol. unfold main.
    rewrite select_file_run, bind_Ok.
    apply String.eqb_neq in Hpath. rewrite Hpath, Hread, bind_lift_Ok, Hcol.
    reflexivity.
Qed.

(** ** Floating-point facts

    The solver tests the sign of a product.  In binary64 a product of two
    tiny numbers rounds to zero, so the test agrees with a comparison of
    signs only because a difference with 0.05 is never tiny: it is zero or
    at least 2^-109 in magnitude. *)

Local Open Scope Z_scope.

Lemma digits2_pos_bounds (p : positive) :
  2 ^ (Zpos (digits2_pos p) - 1) <= Zpos p < 2 ^ Zpos (digits2_pos p).
Proof.
  induction p as [p IH | p IH |]; simpl digits2_pos.
  - rewrite Pos2Z.inj_succ, Z.pow_succ_r by lia.
    replace (Z.succ (Zpos (digits2_pos p)) - 1) with (Z.succ (Zpos (digits2_pos p) - 1)) by lia.
    rewrite Z.pow_succ_r by lia. lia.
  - rewrite Pos2Z.inj_succ, Z.pow_succ_r by lia.
    replace (Z.succ (Zpos (digits2_pos p)) - 1) with (Z.succ (Zpos (digits2_pos p) - 1)) by lia.
    rewrite Z.pow_succ_r by lia. lia.
  - simpl. lia.
Qed.

Lemma shr_1_m (mrs : shr_record) :
  0 <= shr_m mrs -> shr_m (shr_1 mrs) = shr_m mrs / 2 /\ 0 <= shr_m (shr_1 mrs).
Proof.
  destruct mrs as [m r s]. simpl shr_m. intros H. unfold shr_1.
  destruct m as [|[p|p|]|p]; simpl shr_m; try lia; (split; [|lia]).
  - reflexivity.
  - apply (Z.div_unique _ _ _ 1); lia.
  - apply (Z.div_unique _ _ _ 0); lia.
  - reflexivity.
Qed.

Lemma iter_pos_shr_1_m (p : positive) :
  forall mrs, 0 <= shr_m mrs ->
    shr_m (SpecFloat.iter_pos shr_1 p mrs) = shr_m mrs / 2 ^ Zpos p
    /\ 0 <= shr_m (SpecFloat.iter_pos shr_1 p mrs).
Proof.
  induction p as [p IH | p IH |]; intros mrs H; simpl SpecFloat.iter_pos.
  - destruct (shr_1_m mrs H) as [E1 H1].
    destruct (IH _ H1) as [E2 H2]. destruct (IH _ H2) as [E3 H3].
    split; [|exact H3]. rewrite E3, E2, E1.
    rewrite !Z.div_div by (try apply Z.pow_pos_nonneg; lia).
    f_equal. rewrite Pos2Z.inj_xI.
    replace (2 * Zpos p + 1) with (1 + Zpos p + Zpos p) by lia.
    rewrite !Z.pow_add_r by lia. lia.
  - destruct (IH _ H) as [E2 H2]. destruct (IH _ H2) as [E3 H3].
    split; [|exact H3]. rewrite E3, E2.
    rewrite !Z.div_div by (try apply Z.pow_pos_nonneg; lia).
    f_equal. rewrite <- Z.pow_add_r by lia. f_equal. lia.
  - destruct (shr_1_m mrs H) as [E1 H1]. split; [|exact H1]. rewrite E1. reflexivity.
Qed.

Lemma shr_record_of_loc_m (m : Z) (l : location) : shr_m (shr_record_of_loc m l) = m.
Proof. destruct l as [|[| |]]; reflexivity. Qed.

Lemma shr_fexp_exponent (m e : Z) (l : location) :
  snd (shr_fexp prec emax m e l) = Z.max e (fexp prec emax (Zdigits2 m + e)).
Proof.
  unfold shr_fexp, shr.
  destruct (fexp prec emax (Zdigits2 m + e) - e) eqn:E; simpl snd; lia.
Qed.

Lemma shr_fexp_mantissa (p : positive) (e : Z) (l : location) :
  emin <= e -> 0 < shr_m (fst (shr_fexp prec emax (Zpos p) e l)).
Proof.
  intros He. unfold shr_fexp, shr. simpl Zdigits2.
  destruct (fexp prec emax (Zpos (digits2_pos p) + e) - e) as [|q|q] eqn:E; simpl fst;
    try (rewrite shr_record_of_loc_m; lia).
  destruct (iter_pos_shr_1_m q (shr_record_of_loc (Zpos p) l)) as [Em _].
  { rewrite shr_record_of_loc_m. lia. }
  rewrite Em, shr_record_of_loc_m.
  assert (Hq : Zpos q = Zpos (digits2_pos p) - 53).
  { unfold fexp, SpecFloat.emin, prec, emax in E. unfold SpecFloat.emin, prec, emax in He. lia. }
  destruct (digits2_pos_bounds p) as [Hlo _].
  apply Z.div_str_pos. split; [apply Z.pow_pos_nonneg; lia|].
  apply Z.le_trans with (2 ^ (Zpos (digits2_pos p) - 1)); [|exact Hlo].
  apply Z.pow_le_mono_r; lia.
Qed.

Lemma round_nearest_even_pos (m : Z) (l : location) : 0 < m -> 0 < round_nearest_even m l.
Proof.
  intros H. unfold round_nearest_even.
  destruct l as [|[| |]]; try lia. destruct (Z.even m); lia.
Qed.

(** A product or sum of a nonzero mantissa at an exponent of at least
    [emin] does not round to zero, and keeps its sign. *)
Lemma binary_round_aux_positive (s : bool) (p : positive) (e : Z) :
  emin <= e ->
  match binary_round_aux prec emax s (Zpos p) e loc_Exact with
  | S754_finite s' _ _ => s' = s
  | S754_infinity s' => s' = s
  | _ => False
  end.
Proof.
  intros He. unfold binary_round_aux.
  assert (H1 := shr_fexp_mantissa p e loc_Exact He).
  assert (X1 := shr_fexp_exponent (Zpos p) e loc_Exact).
  destruct (shr_fexp prec emax (Zpos p) e loc_Exact) as [mrs1 e1]. simpl fst in H1. simpl snd in X1.
  assert (H2 := round_nearest_even_pos (shr_m mrs1) (loc_of_shr_record mrs1) H1).
  destruct (round_nearest_even (shr_m mrs1) (loc_of_shr_record mrs1)) as [|p2|p2]; try lia.
  assert (H3 := shr_fexp_mantissa p2 e1 loc_Exact ltac:(lia)).
  destruct (shr_fexp prec emax (Zpos p2) e1 loc_Exact) as [mrs2 e2]. simpl fst in H3.
  destruct (shr_m mrs2) as [|p3|p3]; try lia.
  destruct (e2 <=? emax - prec); reflexivity.
Qed.

(** The exponent of a rounded result is at least the canonical exponent
    of the exact value. *)
Lemma binary_round_aux_exponent (s : bool) (m e : Z) (l : location) :
  match binary_round_aux prec emax s m e l with
  | S754_finite _ _ e' => fexp prec emax (Zdigits2 m + e) <= e'
  | _ => True
  end.
Proof.
  unfold binary_round_aux.
  assert (X1 := shr_fexp_exponent m e l).
  destruct (shr_fexp prec emax m e l) as [mrs1 e1]. simpl snd in X1.
  assert (X2 := shr_fexp_exponent (round_nearest_even (shr_m mrs1) (loc_of_shr_record mrs1))
                  e1 loc_Exact).
  destruct (shr_fexp prec emax _ e1 loc_Exact) as [mrs2 e2]. simpl snd in X2.
  destruct (shr_m mrs2); trivial.
  destruct (e2 <=? emax - prec); trivial. lia.
Qed.

Lemma iter_xO_value (p q : positive) : Zpos (Pos.iter xO p q) = Zpos p * 2 ^ Zpos q.
Proof.
  induction q as [|q IH] using Pos.peano_ind.
  - simpl. lia.
  - rewrite Pos.iter_succ, Pos2Z.inj_xO, IH, Pos2Z.inj_succ, Z.pow_succ_r by lia. lia.
Qed.

Lemma iter_xO_digits (p q : positive) :
  Zpos (digits2_pos (Pos.iter xO p q)) = Zpos (digits2_pos p) + Zpos q.
Proof.
  induction q as [|q IH] using Pos.peano_ind.
  - simpl. lia.
  - rewrite Pos.iter_succ. simpl digits2_pos. rewrite Pos2Z.inj_succ, IH. lia.
Qed.

Lemma shl_align_digits (p : positive) (e e' : Z) :
  Zpos (digits2_pos (fst (shl_align p e e'))) + snd (shl_align p e e')
  = Zpos (digits2_pos p) + e.
Proof.
  unfold shl_align. destruct (e' - e) as [|q|q] eqn:E; simpl fst; simpl snd; trivial.
  rewrite iter_xO_digits. lia.
Qed.

Lemma binary_round_exponent (s : bool) (p : positive) (e : Z) :
  match binary_round prec emax s p e with
  | S754_finite _ _ e' => fexp prec emax (Zpos (digits2_pos p) + e) <= e'
  | _ => True
  end.
Proof.
  unfold binary_round.
  assert (D := shl_align_digits p e (fexp prec emax (Zpos (digits2_pos p) + e))).
  destruct (shl_align p e (fexp prec emax (Zpos (digits2_pos p) + e))) as [mz ez].
  simpl fst in D. simpl snd in D.
  assert (X := binary_round_aux_exponent s (Zpos mz) ez loc_Exact).
  simpl Zdigits2 in X. rewrite D in X. exact X.
Qed.

Lemma digits_lower (p : positive) (k : Z) : 2 ^ k <= Zpos p -> k < Zpos (digits2_pos p).
Proof.
  intros H. destruct (digits2_pos_bounds p) as [_ Hhi].
  destruct (Z.lt_ge_cases k (Zpos (digits2_pos p))) as [Hlt|Hge]; [exact Hlt|].
  assert (2 ^ Zpos (digits2_pos p) <= 2 ^ k) by (apply Z.pow_le_mono_r; lia). lia.
Qed.

(** The difference of a float and 0.05, when finite, has an exponent of at
    least -109: it is zero or at least 2^-109 in magnitude. *)
Lemma sub_threshold_exponent (P : spec_float) :
  valid_binary P = true ->
  match SF64sub P SFthreshold with
  | S754_finite _ _ e => -109 <= e
  | _ => True
  end.
Proof.
  intros V. destruct P as [s|s| |sp mp ep]; try exact I.
  - simpl. lia.
  - unfold SF64sub, SFsub, SFthreshold.
    set (ez := Z.min ep (-57)).
    set (M := cond_Zopp sp (Zpos (fst (shl_align mp ep ez)))
              - cond_Zopp false (Zpos (fst (shl_align 7205759403792794 (-57) ez)))).
    cbv zeta.
    assert (Hd : Zpos (digits2_pos mp) <= 53).
    { simpl in V. unfold bounded, canonical_mantissa in V.
      apply andb_prop in V. destruct V as [V _]. apply Z.eqb_eq in V.
      unfold fexp, SpecFloat.emin, prec, emax in V. lia. }
    assert (Hmp : Zpos mp < 2 ^ 53).
    { destruct (digits2_pos_bounds mp) as [_ Hhi].
      apply Z.lt_le_trans with (1 := Hhi). apply Z.pow_le_mono_r; lia. }
    assert (Hdigits : forall q, Zpos q = Z.abs M -> -56 <= Zpos (digits2_pos q) + ez).
    { intros q Hq.
      destruct (Z.le_gt_cases (-57) ep) as [Hep|Hep].
      - assert (ez = -57) by (unfold ez; lia). lia.
      - assert (Hez : ez = ep) by (unfold ez; lia).
        assert (Hk : exists k, -57 - ep = Zpos k).
        { destruct (-57 - ep) as [|k|k] eqn:E; try lia. exists k. reflexivity. }
        destruct Hk as [k Hk].
        assert (E1 : fst (shl_align mp ep ez) = mp).
        { unfold shl_align. rewrite Hez, Z.sub_diag. reflexivity. }
        assert (E2 : Zpos (fst (shl_align 7205759403792794 (-57) ez))
                     = 7205759403792794 * 2 ^ Zpos k).
        { unfold shl_align. replace (ez - -57) with (Zneg k) by lia.
          simpl fst. apply iter_xO_value. }
        assert (Hpow : 2 * 2 ^ 53 <= 2 ^ Zpos k * 2 ^ 53).
        { assert (2 ^ 1 <= 2 ^ Zpos k) by (apply Z.pow_le_mono_r; lia). lia. }
        assert (Habs : 2 ^ (Zpos k + 51) <= Z.abs M).
        { unfold M. rewrite E1, E2, Z.pow_add_r by lia.
          change (2 ^ 51) with 2251799813685248.
          change (2 ^ 53) with 9007199254740992 in *.
          assert (0 < 2 ^ Zpos k) by (apply Z.pow_pos_nonneg; lia).
          generalize dependent (2 ^ Z.pos k). intros X _ HX1 HX2.
          clear - Hmp HX1 HX2. destruct sp; unfold cond_Zopp; lia. }
        rewrite <- Hq in Habs. apply digits_lower in Habs. lia. }
    destruct M as [|q|q] eqn:EM; simpl binary_normalize; try exact I.
    + assert (X := binary_round_exponent false q ez).
      destruct (binary_round prec emax false q ez); try exact I.
      specialize (Hdigits q eq_refl).
      unfold fexp, SpecFloat.emin, prec, emax in X. lia.
    + assert (X := binary_round_exponent true q ez).
      destruct (binary_round prec emax true q ez); try exact I.
      specialize (Hdigits q eq_refl).
      unfold fexp, SpecFloat.emin, prec, emax in X. lia.
Qed.

Lemma mul_same_sign (X Y : spec_float) :
  match X with S754_finite _ _ e => -109 <= e | _ => True end ->
  match Y with S754_finite _ _ e => -109 <= e | _ => True end ->
  (SFpositive X && SFpositive Y || SFnegative X && SFnegative Y)%bool = true ->
  SFpositive (SF64mul X Y) = true.
Proof.
  intros HX HY H.
  destruct X as [sx|sx| |sx mx ex]; destruct Y as [sy|sy| |sy my ey];
    try destruct sx; try destruct sy; try discriminate H; try reflexivity.
  all: unfold SF64mul, SFmul; simpl xorb.
  all: assert (R := binary_round_aux_positive false (mx * my) (ex + ey)
                      ltac:(unfold SpecFloat.emin, prec, emax; lia)).
  all: destruct (binary_round_aux prec emax false (Zpos (mx * my)) (ex + ey) loc_Exact)
         as [s|s| |s m e]; try contradiction; subst s; reflexivity.
Qed.

Local Close Scope Z_scope.

(** Two floats on the same strict side of 0.05 have objectives whose
    product is positive: the product cannot underflow to zero. *)
Lemma same_side_product_positive (p0 p1 : float) :
  let f0 := (p0 - 0.05)%float in
  let f1 := (p1 - 0.05)%float in
  same_sign f0 f1 = true -> (0 <? f0 * f1)%float = true.
Proof.
  intros f0 f1 H. unfold same_sign in H.
  rewrite !FloatAxioms.ltb_spec in H. rewrite FloatAxioms.ltb_spec, FloatAxioms.mul_spec.
  change (Prim2SF 0) with (S754_zero false) in *.
  unfold f0, f1 in *. rewrite !FloatAxioms.sub_spec in *.
  change (Prim2SF 0.05) with SFthreshold in *.
  apply mul_same_sign.
  - apply sub_threshold_exponent, Prim2SF_valid.
  - apply sub_threshold_exponent, Prim2SF_valid.
  - exact H.
Qed.

Lemma binary_round_aux_sign (s : bool) (m e : Z) (l : location) :
  match binary_round_aux prec emax s m e l with
  | S754_finite s' _ _ | S754_infinity s' | S754_zero s' => s' = s
  | S754_nan => True
  end.
Proof.
  unfold binary_round_aux.
  destruct (shr_fexp prec emax m e l) as [mrs1 e1].
  destruct (shr_fexp prec emax _ e1 loc_Exact) as [mrs2 e2].
  destruct (shr_m mrs2); trivial.
  destruct (e2 <=? emax - prec)%Z; reflexivity.
Qed.

Lemma positive_product_same_sign (X Y : spec_float) :
  SFpositive (SF64mul X Y) = true ->
  (SFpositive X && SFpositive Y || SFnegative X && SFnegative Y)%bool = true.
Proof.
  destruct X as [sx|sx| |sx mx ex]; destruct Y as [sy|sy| |sy my ey];
    try destruct sx; try destruct sy; try discriminate; try reflexivity.
  all: unfold SF64mul, SFmul; simpl xorb.
  all: assert (R := binary_round_aux_sign true (Zpos (mx * my)) (ex + ey) loc_Exact).
  all: destruct (binary_round_aux prec emax true (Zpos (mx * my)) (ex + ey) loc_Exact)
         as [s|s| |s m e]; try discriminate; subst s; discriminate.
Qed.

Lemma product_positive_same_side (x y : float) :
  (0 <? x * y)%float = true -> same_sign x y = true.
Proof.
  unfold same_sign. rewrite !FloatAxioms.ltb_spec, FloatAxioms.mul_spec.
  change (Prim2SF 0) with (S754_zero false).
  apply positive_product_same_sign.
Qed.

(** ** The margin solver *)

Lemma zero_product_not_positive (x : float) :
  (x =? 0)%float = true -> (0 <? x)%float = false.
Proof.
  rewrite FloatAxioms.eqb_spec, FloatAxioms.ltb_spec.
  change (Prim2SF 0) with (S754_zero false).
  destruct (Prim2SF x) as [s | s | | s m e]; try destruct s; simpl;
    intros H; try reflexivity; discriminate H.
Qed.

Lemma nonpositive_not_positive (x : float) :
  (x <=? 0)%float = true -> (0 <? x)%float = false.
Proof.
  rewrite FloatAxioms.leb_spec, FloatAxioms.ltb_spec.
  change (Prim2SF 0) with (S754_zero false).
  destruct (Prim2SF x) as [s | s | | s m e]; try destruct s; simpl;
    intros H; try reflexivity; discriminate H.
Qed.

Lemma objective_pure (data : list float) (reference_value : value)
    (test_function : list float -> value -> value -> M (float * float))
    (stat pval : float -> float) (margin : value) (m : float) :
  pure_test data reference_value test_function stat pval ->
  as_double margin = Ok m ->
  objective_function data reference_value test_function margin
  = ret (pval m - 0.05)%float.
Proof.
  intros Hpure H. unfold objective_function.
  rewrite (Hpure margin m H), bind_ret. reflexivity.
Qed.

Lemma print_objective_pure (data : list float) (reference_value : value)
    (test_function : list float -> value -> value -> M (float * float))
    (stat pval : float -> float) :
  pure_test data reference_value test_function stat pval ->
  print_objective (objective_function data reference_value test_function)
    [VInt 0; VFloat 0.25; VFloat 0.5; VFloat 0.75; VFloat 1.0]
  = (diagnostics (fun m => (pval m - 0.05)%float), Ok tt).
Proof.
  intros Hpure. unfold print_objective.
  rewrite (objective_pure _ _ _ _ _ (VInt 0) 0%float Hpure eq_refl), bind_ret, bind_emit.
  rewrite (objective_pure _ _ _ _ _ (VFloat 0.25) 0.25%float Hpure eq_refl), bind_ret, bind_emit.
  rewrite (objective_pure _ _ _ _ _ (VFloat 0.5) 0.5%float Hpure eq_refl), bind_ret, bind_emit.
  rewrite (objective_pure _ _ _ _ _ (VFloat 0.75) 0.75%float Hpure eq_refl), bind_ret, bind_emit.
  rewrite (objective_pure _ _ _ _ _ (VFloat 1) 1%float Hpure eq_refl), bind_ret, bind_emit.
  reflexivity.
Qed.

(** The solver on a pure test: the five diagnostic lines, then either
    its own error or whatever the root finder does on [0, 1]. *)
Lemma find_pure (data : list float) (reference_value : value)
    (test_function : list float -> value -> value -> M (float * float))
    (stat pval : float -> float) :
  pure_test data reference_value test_function stat pval ->
  let f := fun m => (pval m - 0.05)%float in
  let library :=
    root_scalar_brentq
      (fun x => objective_function data reference_value test_function (VFloat x))
      0%float 1%float in
  find_non_inferiority_margin data reference_value test_function
  = if (0 <? f 0 * f 1)%float
    then (diagnostics f, Raise (ValueError no_sign_change))
    else ((diagnostics f ++ trace library)%list, outcome library).
Proof.
  intros Hpure f library. unfold find_non_inferiority_margin.
  rewrite (print_objective_pure _ _ _ _ _ Hpure), bind_Ok.
  rewrite (objective_pure _ _ _ _ _ (VInt 0) 0%float Hpure eq_refl), bind_ret.
  rewrite (objective_pure _ _ _ _ _ (VInt 1) 1%float Hpure eq_refl), bind_ret.
  cbn [trace outcome fst snd].
  destruct (0 <? f 0 * f 1)%float eqn:E; unfold f in E; cbv beta in E; rewrite E.
  - unfold raise. cbn [trace outcome fst snd]. rewrite app_nil_r. reflexivity.
  - fold library. reflexivity.
Qed.

(** The parametric test is pure whenever the reference mean is a number. *)
Lemma parametric_pure (data : list float) (r : float) :
  pure_test data (VFloat r) perform_non_inferiority_test_parametric
    (fun m => fst (ttest_1samp data (r - m)%float Greater))
    (fun m => snd (ttest_1samp data (r - m)%float Greater)).
Proof.
  intros margin m H. rewrite (perform_run data r margin m H).
  destruct (ttest_1samp data _ Greater); reflexivity.
Qed.

(** C2: on a test function that itself raises nothing, and with a root
    finder that does not raise the solver's own message,
    [find_non_inferiority_margin] ends with the ValueError "Function does
    not change signs within the interval [0, 1]" exactly when
    [objective(0) * objective(1) > 0], where [objective(m)] is the
    p-value at [m] minus 0.05; that is exactly when the two objectives are
    both positive or both negative.  When the product is zero the solver
    does not raise: the bracket is handed to the root finder.  When the two
    objectives have the same sign no root is returned. *)
Theorem find_raises_iff_no_sign_change
    (data : list float) (reference_value : value)
    (test_function : list float -> value -> value -> M (float * float))
    (stat pval : float -> float) :
  pure_test data reference_value test_function stat pval ->
  let f := fun m => (pval m - 0.05)%float in
  let library :=
    root_scalar_brentq
      (fun x => objective_function data reference_value test_function (VFloat x))
      0%float 1%float in
  let solver := find_non_inferiority_margin data reference_value test_function in
  outcome library <> Raise (ValueError no_sign_change) ->
  (outcome solver = Raise (ValueError no_sign_change) <-> (0 <? f 0 * f 1)%float = true)
  /\ ((0 <? f 0 * f 1)%float = true <-> same_sign (f 0%float) (f 1%float) = true)
  /\ ((f 0 * f 1 =? 0)%float = true ->
      solver = ((diagnostics f ++ trace library)%list, outcome library))
  /\ (same_sign (f 0%float) (f 1%float) = true -> forall root, outcome solver <> Ok root).
Proof.
  intros Hpure f library solver Hlib.
  assert (E := find_pure data reference_value test_function stat pval Hpure).
  fold f library solver in E.
  assert (Hsign : (0 <? f 0 * f 1)%float = true <-> same_sign (f 0%float) (f 1%float) = true).
  { split.
    - apply product_positive_same_side.
    - apply (same_side_product_positive (pval 0%float) (pval 1%float)). }
  split; [|split; [exact Hsign | split]].
  - split.
    + intros H. rewrite E in H. destruct (0 <? f 0 * f 1)%float; [reflexivity|].
      contradiction.
    + intros H. rewrite E, H. reflexivity.
  - intros H. apply zero_product_not_positive in H. rewrite E, H. reflexivity.
  - intros H root. apply Hsign in H. rewrite E, H. discriminate.
Qed.

(** ** Runs of [main] past the two guards *)

Lemma column_has_column (name : string) (df : DataFrame) (series : list float) :
  column name df = Ok series -> has_column name df = true.
Proof.
  induction df as [|[n c] rest IH]; simpl; intros H.
  - discriminate.
  - destruct (String.eqb n name); [reflexivity | apply IH; exact H].
Qed.

Lemma main_parts (w : world) :
  main w
  = (file_path <- select_file w ;;
     if String.eqb file_path EmptyString then
       emit (ShowInfo "Information" [Lit "No file selected. Exiting."])
     else
       df <- lift (read_csv w file_path) ;;
       if negb (has_column "Dice" df) then
         emit (ShowError "Error"
                 [Lit "'Dice' column not found in the selected file. Exiting."])
       else
         series <- lift (column "Dice" df) ;;
         analyse w (dropna series)).
Proof. reflexivity. Qed.

Lemma main_run (w : world) (df : DataFrame) (series : list float) :
  askopenfilename w <> EmptyString ->
  read_csv w (askopenfilename w) = Ok df ->
  column "Dice" df = Ok series ->
  main w = (AskOpenFilename "Select CSV File" (askopenfilename w)
              :: trace (analyse w (dropna series)),
            outcome (analyse w (dropna series))).
Proof.
  intros Hpath Hread Hcol. rewrite main_parts.
  rewrite select_file_run, bind_Ok.
  apply String.eqb_neq in Hpath.
  rewrite Hpath, Hread, bind_lift_Ok, (column_has_column _ _ _ Hcol), Hcol, bind_lift_Ok.
  reflexivity.
Qed.

Lemma analyse_run (w : world) (data : list float) :
  let reference_median := optional (askfloat w median_prompt (Series_median data)) in
  let reference_mean := optional (askfloat w mean_prompt (Series_mean data)) in
  let solved := solve_margin data reference_mean in
  let rest :=
    bind solved (fun '(margin, percentage) =>
      report data (Series_mean data) (Series_std data) (Series_median data)
        (Series_quantile data 0.75 - Series_quantile data 0.25)%float
        reference_median reference_mean margin percentage) in
  analyse w data
  = (AskFloat median_prompt (Series_median data) reference_median
       :: AskFloat mean_prompt (Series_mean data) reference_mean
       :: trace rest,
     outcome rest).
Proof.
  intros. unfold analyse, calculate_statistics. cbv zeta.
  rewrite !prompt_for_value_run, bind_Ok. cbn [trace outcome fst snd app].
  rewrite bind_Ok. reflexivity.
Qed.

Lemma solve_margin_caught (data : list float) (reference_mean : value)
    (searched : list event) (msg : string) :
  find_non_inferiority_margin data reference_mean perform_non_inferiority_test_parametric
  = (searched, Raise (ValueError msg)) ->
  solve_margin data reference_mean
  = ((searched ++ [failure_line (ValueError msg)])%list, Ok (VNone, VNone)).
Proof. intros H. unfold solve_margin. rewrite H, bind_Raise. reflexivity. Qed.

Lemma solve_margin_uncaught (data : list float) (reference_mean : value)
    (searched : list event) (e : exn) :
  find_non_inferiority_margin data reference_mean perform_non_inferiority_test_parametric
  = (searched, Raise e) ->
  is_ValueError e = false ->
  solve_margin data reference_mean = (searched, Raise e).
Proof.
  intros H He. unfold solve_margin. rewrite H, bind_Raise.
  unfold try_except. rewrite He. reflexivity.
Qed.

(** The factor 100 of the percentage is an [int]; its conversion cannot
    fail. *)
Lemma percentage_of_quotient (q : float) :
  py_mul (VFloat q) (VInt 100) = Ok (VFloat (q * float_of_Z 100)%float).
Proof. reflexivity. Qed.

Lemma solve_margin_zero (data : list float) (r : float)
    (searched : list event) (m : float) :
  find_non_inferiority_margin data (VFloat r) perform_non_inferiority_test_parametric
  = (searched, Ok m) ->
  (r =? 0)%float = true ->
  solve_margin data (VFloat r)
  = (searched, Raise (ZeroDivisionError "float division by zero")).
Proof.
  intros H Hr. unfold solve_margin. rewrite H, bind_Ok.
  unfold py_truediv, float_div. rewrite Hr, bind_lift_Raise.
  cbn [trace outcome fst snd try_except is_ValueError]. rewrite app_nil_r. reflexivity.
Qed.

Lemma report_without_margin (data : list float) (mean std median iqr : float)
    (reference_median reference_mean : value) :
  report data mean std median iqr reference_median reference_mean VNone VNone
  = ([], Raise (TypeError "unsupported format string passed to NoneType.__format__")).
Proof. reflexivity. Qed.

Lemma find_without_reference (data : list float) :
  find_non_inferiority_margin data VNone perform_non_inferiority_test_parametric
  = ([], Raise (TypeError "unsupported operand type(s) for -: 'NoneType' and 'int'")).
Proof. reflexivity. Qed.

(** C1: whenever the margin solver raises a ValueError, the handler of
    [main] catches it, sets margin and percentage to [None] and prints its
    diagnostic line; the run then ends with an uncaught TypeError, raised
    where the report formats the absent percentage with two decimals.  No
    plot, no report box and no printed report follow the diagnostic
    line. *)
Theorem margin_not_found_aborts (w : world) (df : DataFrame) (series : list float)
    (searched : list event) (msg : string) :
  askopenfilename w <> EmptyString ->
  read_csv w (askopenfilename w) = Ok df ->
  column "Dice" df = Ok series ->
  let data := dropna series in
  let reference_mean := optional (askfloat w mean_prompt (Series_mean data)) in
  find_non_inferiority_margin data reference_mean perform_non_inferiority_test_parametric
  = (searched, Raise (ValueError msg)) ->
  solve_margin data reference_mean
  = ((searched ++ [failure_line (ValueError msg)])%list, Ok (VNone, VNone))
  /\ format_2f VNone
     = Raise (TypeError "unsupported format string passed to NoneType.__format__")
  /\ main w
     = ((AskOpenFilename "Select CSV File" (askopenfilename w)
           :: AskFloat median_prompt (Series_median data)
                (optional (askfloat w median_prompt (Series_median data)))
           :: AskFloat mean_prompt (Series_mean data) reference_mean
           :: searched ++ [failure_line (ValueError msg)])%list,
        Raise (TypeError "unsupported format string passed to NoneType.__format__")).
Proof.
  intros Hpath Hread Hcol data reference_mean Hfind.
  assert (Hsolve := solve_margin_caught data reference_mean searched msg Hfind).
  split; [exact Hsolve | split; [reflexivity|]].
  rewrite (main_run w df series Hpath Hread Hcol).
  fold data. rewrite (analyse_run w data). cbv zeta. fold reference_mean.
  rewrite Hsolve, bind_Ok, report_without_margin.
  cbn [trace outcome fst snd]. rewrite app_nil_r. reflexivity.
Qed.

Lemma solve_margin_found (data : list float) (r : float)
    (searched : list event) (m : float) :
  find_non_inferiority_margin data (VFloat r) perform_non_inferiority_test_parametric
  = (searched, Ok m) ->
  (r =? 0)%float = false ->
  solve_margin data (VFloat r)
  = (searched, Ok (VFloat m, VFloat (m / r * float_of_Z 100)%float)).
Proof.
  intros H Hr. unfold solve_margin. rewrite H, bind_Ok.
  unfold py_truediv, float_div. rewrite Hr, bind_lift_Ok, percentage_of_quotient, bind_lift_Ok.
  cbn [trace outcome fst snd ret try_except]. rewrite app_nil_r. reflexivity.
Qed.

(** C5: when a margin has been found (and the percentage computed) and
    the histogram of the sample is drawn, [main] plots, then shows and
    prints the report, whose last field is the verdict of the p-value
    re-evaluated at the margin; the verdict is "Pass" exactly when that
    p-value is strictly below 0.05 and "Fail" otherwise.  A p-value equal
    to 0.05 gives "Fail", and the verdict expression gives "Fail" for an
    absent p-value.  When the histogram raises instead, as it does for a
    sample with an infinite value, [main] ends with that exception right
    after the solver's output, and no verdict is shown. *)
Theorem verdict_is_strict_threshold (w : world) (df : DataFrame) (series : list float)
    (r : float) (searched : list event) (m : float) :
  askopenfilename w <> EmptyString ->
  read_csv w (askopenfilename w) = Ok df ->
  column "Dice" df = Ok series ->
  let data := dropna series in
  askfloat w mean_prompt (Series_mean data) = Some r ->
  (r =? 0)%float = false ->
  find_non_inferiority_margin data (VFloat r) perform_non_inferiority_test_parametric
  = (searched, Ok m) ->
  let p := snd (ttest_1samp data (r - m)%float Greater) in
  let asked :=
    [AskOpenFilename "Select CSV File" (askopenfilename w);
     AskFloat median_prompt (Series_median data)
       (optional (askfloat w median_prompt (Series_median data)));
     AskFloat mean_prompt (Series_mean data) (VFloat r)] in
  (hist data = Ok tt ->
   exists message,
     main w
     = ((asked ++ searched
         ++ [PlotHistogram data (VFloat r) (VFloat (r - m)%float) "Mean";
             ShowInfo "Non-Inferiority Test Result" message;
             Stdout message])%list,
        Ok tt)
     /\ last message (Lit EmptyString) = Lit (verdict (VFloat p)))
  /\ (forall e, hist data = Raise e -> main w = ((asked ++ searched)%list, Raise e))
  /\ (verdict (VFloat p) = "Pass" <-> (p <? 0.05)%float = true)
  /\ (verdict (VFloat p) = "Fail" <-> (p <? 0.05)%float = false)
  /\ verdict (VFloat 0.05%float) = "Fail"
  /\ verdict VNone = "Fail".
Proof.
  intros Hpath Hread Hcol data Hentered Hnonzero Hfind p asked.
  assert (Hmain : main w
                  = ((asked ++ searched
                      ++ trace (report data (Series_mean data) (Series_std data)
                                  (Series_median data)
                                  (Series_quantile data 0.75
                                   - Series_quantile data 0.25)%float
                                  (optional (askfloat w median_prompt (Series_median data)))
                                  (VFloat r) (VFloat m)
                                  (VFloat (m / r * float_of_Z 100)%float)))%list,
                     outcome (report data (Series_mean data) (Series_std data)
                                (Series_median data)
                                (Series_quantile data 0.75
                                 - Series_quantile data 0.25)%float
                                (optional (askfloat w median_prompt (Series_median data)))
                                (VFloat r) (VFloat m)
                                (VFloat (m / r * float_of_Z 100)%float)))).
  { rewrite (main_run w df series Hpath Hread Hcol).
    fold data. rewrite (analyse_run w data). cbv zeta.
    rewrite Hentered. simpl optional.
    rewrite (solve_margin_found data r searched m Hfind Hnonzero), bind_Ok.
    reflexivity. }
  split; [|split; [|split; [apply verdict_Pass
                           | split; [apply verdict_Fail | split; reflexivity]]]].
  - intros Hhist.
    destruct (report_with_margin data (Series_mean data) (Series_std data)
                (Series_median data)
                (Series_quantile data 0.75 - Series_quantile data 0.25)%float
                (optional (askfloat w median_prompt (Series_median data)))
                r m (m / r * float_of_Z 100)%float Hhist) as [message [_ [Hreport Hlast]]].
    exists message. split; [|exact Hlast].
    rewrite Hmain, Hreport. reflexivity.
  - intros e Hhist.
    rewrite Hmain, (report_plot_raises _ _ _ _ _ _ _ _ _ e Hhist).
    cbn [trace outcome fst snd]. rewrite app_nil_r. reflexivity.
Qed.

(** C7: when the reference-mean prompt is cancelled, nothing guards the
    absent value: the hypothesis test fails on [reference_mean - margin]
    with a TypeError at the solver's first evaluation, the handler for
    ValueError does not catch it, and [main] ends with that TypeError
    right after the two prompts. *)
Theorem cancelled_reference_mean_aborts (w : world) (df : DataFrame) (series : list float) :
  askopenfilename w <> EmptyString ->
  read_csv w (askopenfilename w) = Ok df ->
  column "Dice" df = Ok series ->
  let data := dropna series in
  askfloat w mean_prompt (Series_mean data) = None ->
  (forall margin,
      perform_non_inferiority_test_parametric data VNone margin
      = ([], Raise (unsupported_operand "-" VNone margin)))
  /\ solve_margin data VNone
     = ([], Raise (TypeError "unsupported operand type(s) for -: 'NoneType' and 'int'"))
  /\ main w
     = ([AskOpenFilename "Select CSV File" (askopenfilename w);
         AskFloat median_prompt (Series_median data)
           (optional (askfloat w median_prompt (Series_median data)));
         AskFloat mean_prompt (Series_mean data) VNone],
        Raise (TypeError "unsupported operand type(s) for -: 'NoneType' and 'int'")).
Proof.
  intros Hpath Hread Hcol data Hcancel.
  assert (Hsolve : solve_margin data VNone
     = ([], Raise (TypeError "unsupported operand type(s) for -: 'NoneType' and 'int'"))).
  { apply solve_margin_uncaught; [apply find_without_reference | reflexivity]. }
  split; [|split].
  - intros margin. destruct margin; reflexivity.
  - exact Hsolve.
  - rewrite (main_run w df series Hpath Hread Hcol).
    fold data. rewrite (analyse_run w data). cbv zeta.
    rewrite Hcancel. simpl optional. rewrite Hsolve, bind_Raise. reflexivity.
Qed.

(** C8: when a margin is found and the reference mean entered is zero,
    the percentage [margin / reference_mean * 100] raises
    ZeroDivisionError; the handler for ValueError does not catch it, and
    [main] ends with that exception right after the solver's output,
    with no diagnostic line, no plot and no report. *)
Theorem zero_reference_mean_aborts (w : world) (df : DataFrame) (series : list float)
    (r : float) (searched : list event) (m : float) :
  askopenfilename w <> EmptyString ->
  read_csv w (askopenfilename w) = Ok df ->
  column "Dice" df = Ok series ->
  let data := dropna series in
  askfloat w mean_prompt (Series_mean data) = Some r ->
  (r =? 0)%float = true ->
  find_non_inferiority_margin data (VFloat r) perform_non_inferiority_test_parametric
  = (searched, Ok m) ->
  py_truediv (VFloat m) (VFloat r) = Raise (ZeroDivisionError "float division by zero")
  /\ main w
     = ((AskOpenFilename "Select CSV File" (askopenfilename w)
           :: AskFloat median_prompt (Series_median data)
                (optional (askfloat w median_prompt (Series_median data)))
           :: AskFloat mean_prompt (Series_mean data) (VFloat r)
           :: searched)%list,
        Raise (ZeroDivisionError "float division by zero")).
Proof.
  intros Hpath Hread Hcol data Hentered Hzero Hfind.
  split.
  - unfold py_truediv, float_div. rewrite Hzero. reflexivity.
  - rewrite (main_run w df series Hpath Hread Hcol).
    fold data. rewrite (analyse_run w data). cbv zeta.
    rewrite Hentered. simpl optional.
    rewrite (solve_margin_zero data r searched m Hfind Hzero), bind_Raise.
    reflexivity.
Qed.

(** X10: [main] consults its environment at four places only: the path
    chosen in the file dialog, the table read at that path, and the
    answers to the reference-median and the reference-mean prompt.  Two
    environments that agree there give the same run, whatever they hold
    at other paths and for other prompts. *)
Theorem main_reads_answers_only (w1 w2 : world) :
  askopenfilename w1 = askopenfilename w2 ->
  read_csv w1 (askopenfilename w1) = read_csv w2 (askopenfilename w2) ->
  (forall initialvalue,
      askfloat w1 median_prompt initialvalue = askfloat w2 median_prompt initialvalue) ->
  (forall initialvalue,
      askfloat w1 mean_prompt initialvalue = askfloat w2 mean_prompt initialvalue) ->
  main w1 = main w2.
Proof.
  intros Hpath Hread Hmedian Hmean. rewrite !main_parts.
  rewrite <- Hpath in Hread.
  rewrite !select_file_run, !bind_Ok, <- Hpath.
  destruct (String.eqb (askopenfilename w1) EmptyString); [reflexivity|].
  rewrite <- Hread.
  destruct (read_csv w1 (askopenfilename w1)) as [df|e]; [|reflexivity].
  rewrite !bind_lift_Ok.
  destruct (negb (has_column "Dice" df)); [reflexivity|].
  destruct (column "Dice" df) as [series|e]; [|reflexivity].
  rewrite !bind_lift_Ok, !analyse_run. cbv zeta.
  rewrite Hmedian, Hmean. reflexivity.
Qed.

(** ** Further properties of [main] and its parts *)

Lemma has_column_column (name : string) (df : DataFrame) :
  has_column name df = true -> exists series, column name df = Ok series.
Proof.
  induction df as [|[n c] rest IH]; simpl; intros H.
  - discriminate.
  - destruct (String.eqb n name).
    + exists c. reflexivity.
    + apply IH. exact H.
Qed.

Lemma dropna_idempotent (s : list float) : dropna (dropna s) = dropna s.
Proof.
  unfold dropna. induction s as [|x rest IH]; simpl; [reflexivity|].
  destruct (is_nan x) eqn:E; simpl; [exact IH|]. rewrite E. simpl. rewrite IH. reflexivity.
Qed.

(** [analyse] reads the environment through its numeric prompts only. *)
Lemma analyse_same_answers (w1 w2 : world) (data : list float) :
  (forall prompt initialvalue,
      askfloat w1 prompt initialvalue = askfloat w2 prompt initialvalue) ->
  analyse w1 data = analyse w2 data.
Proof.
  intros H. rewrite !analyse_run. cbv zeta. rewrite !H. reflexivity.
Qed.

(** The conversion of an [int] fails with OverflowError only. *)
Lemma float_of_int_error (z : Z) (e : exn) :
  float_of_int z = Raise e -> is_ValueError e = false.
Proof.
  unfold float_of_int. destruct (is_infinity (float_of_Z z)); intros H; inversion H.
  reflexivity.
Qed.

(** A float divided by anything is a float, or an exception other than
    ValueError. *)
Lemma truediv_float (x : float) (b quotient : value) :
  py_truediv (VFloat x) b = Ok quotient -> exists q, quotient = VFloat q.
Proof.
  destruct b as [|z|y]; cbn [py_truediv]; unfold and_then, float_div.
  - discriminate.
  - destruct (float_of_int z) as [y|e]; [|discriminate].
    destruct (y =? 0)%float; intros H; inversion H. eexists. reflexivity.
  - destruct (y =? 0)%float; intros H; inversion H. eexists. reflexivity.
Qed.

Lemma truediv_not_ValueError (x : float) (b : value) (e : exn) :
  py_truediv (VFloat x) b = Raise e -> is_ValueError e = false.
Proof.
  destruct b as [|z|y]; cbn [py_truediv]; unfold and_then, float_div.
  - intros H. inversion H. reflexivity.
  - destruct (float_of_int z) as [y|e'] eqn:E.
    + destruct (y =? 0)%float; intros H; inversion H. reflexivity.
    + intros H. inversion H; subst e'. apply (float_of_int_error z e E).
  - destruct (y =? 0)%float; intros H; inversion H. reflexivity.
Qed.

(** What the [try] statement can leave behind when it does not raise. *)
Lemma solve_margin_inv (data : list float) (reference_mean : value)
    (t : list event) (margin percentage : value) :
  solve_margin data reference_mean = (t, Ok (margin, percentage)) ->
  (exists searched msg,
      find_non_inferiority_margin data reference_mean
        perform_non_inferiority_test_parametric = (searched, Raise (ValueError msg))
      /\ t = (searched ++ [failure_line (ValueError msg)])%list
      /\ margin = VNone /\ percentage = VNone)
  \/ (exists x quotient y,
      find_non_inferiority_margin data reference_mean
        perform_non_inferiority_test_parametric = (t, Ok x)
      /\ margin = VFloat x
      /\ py_truediv (VFloat x) reference_mean = Ok quotient
      /\ py_mul quotient (VInt 100) = Ok percentage
      /\ percentage = VFloat y).
Proof.
  intros H. unfold solve_margin in H.
  destruct (find_non_inferiority_margin data reference_mean
              perform_non_inferiority_test_parametric) as [searched [x|e]] eqn:Efind.
  - right. rewrite bind_Ok in H.
    destruct (py_truediv (VFloat x) reference_mean) as [quotient|e] eqn:Ediv.
    + destruct (truediv_float _ _ _ Ediv) as [q Hq]. subst quotient.
      rewrite bind_lift_Ok, percentage_of_quotient, bind_lift_Ok in H.
      cbn [trace outcome fst snd ret try_except] in H. rewrite app_nil_r in H.
      inversion H; subst.
      exists x, (VFloat q), (q * float_of_Z 100)%float.
      split; [reflexivity | split; [reflexivity | split; [exact Ediv | split]]].
      * apply percentage_of_quotient.
      * reflexivity.
    + exfalso. rewrite bind_lift_Raise in H.
      cbn [trace outcome fst snd try_except] in H.
      rewrite (truediv_not_ValueError _ _ _ Ediv) in H. discriminate H.
  - left. rewrite bind_Raise in H. unfold try_except in H.
    destruct e as [msg|msg|msg|msg|msg|msg|msg]; simpl in H; try discriminate.
    cbn in H. inversion H; subst. exists searched, msg. repeat split; reflexivity.
Qed.

(** The events of [report] before the report itself do not depend on the
    reference median, and neither does the way it ends. *)
Lemma report_shape (data : list float) (mean std median iqr : float)
    (reference_mean margin percentage : value) :
  exists before,
    (exists e, forall reference_median,
        report data mean std median iqr reference_median reference_mean margin percentage
        = (before, Raise e))
    \/ (forall reference_median, exists message,
        report data mean std median iqr reference_median reference_mean margin percentage
        = ((before ++ [ShowInfo "Non-Inferiority Test Result" message; Stdout message])%list,
           Ok tt)).
Proof.
  destruct (if is_not_None margin
            then plot_data data reference_mean margin "Mean" else ret tt)
    as [plotted [[]|e]] eqn:EP.
  2:{ exists plotted. left. exists e. intros. unfold report. rewrite EP. reflexivity. }
  destruct (if is_not_None margin
            then '(t, p) <- perform_non_inferiority_test_parametric data reference_mean
                              margin ;;
                 ret (VFloat t, VFloat p)
            else ret (VNone, VNone))
    as [tested [[test_statistic_p p_value_p]|e]] eqn:ET.
  2:{ exists (plotted ++ tested)%list. left. exists e. intros. unfold report.
      rewrite EP, bind_Ok, ET. reflexivity. }
  exists (plotted ++ tested)%list.
  destruct (format_2f percentage) as [shown|e] eqn:EF.
  - right. intros. eexists. unfold report. rewrite EP, bind_Ok, ET, bind_Ok.
    cbn [trace outcome fst snd]. unfold result_message. rewrite EF. simpl fstring.
    rewrite bind_lift_Ok, bind_emit. cbn [trace outcome fst snd emit].
    rewrite <- app_assoc. reflexivity.
  - left. exists e. intros. unfold report. rewrite EP, bind_Ok, ET, bind_Ok.
    cbn [trace outcome fst snd]. unfold result_message. rewrite EF. simpl fstring.
    rewrite bind_lift_Raise. cbn [trace outcome fst snd]. rewrite !app_nil_r. reflexivity.
Qed.

Lemma read_error_surfaces_aux (w : world) (e : exn) :
  askopenfilename w <> EmptyString ->
  read_csv w (askopenfilename w) = Raise e ->
  main w = ([AskOpenFilename "Select CSV File" (askopenfilename w)], Raise e).
Proof.
  intros Hpath Hread. rewrite main_parts, select_file_run, bind_Ok.
  apply String.eqb_neq in Hpath. rewrite Hpath, Hread. reflexivity.
Qed.

(** X1: a file that cannot be read is not handled: the exception of
    [read_csv] leaves [main] as it is, after the file dialog alone; no
    message box is shown. *)
Theorem read_error_surfaces (w : world) (e : exn) :
  askopenfilename w <> EmptyString ->
  read_csv w (askopenfilename w) = Raise e ->
  main w = ([AskOpenFilename "Select CSV File" (askopenfilename w)], Raise e).
Proof. exact (read_error_surfaces_aux w e). Qed.

(** X2: the handler of [main] is for ValueError only: any other exception
    of the margin solver leaves [main] unchanged, right after the
    solver's output, with no diagnostic line, no plot and no report. *)
Theorem solver_error_surfaces (w : world) (df : DataFrame) (series : list float)
    (searched : list event) (e : exn) :
  askopenfilename w <> EmptyString ->
  read_csv w (askopenfilename w) = Ok df ->
  column "Dice" df = Ok series ->
  let data := dropna series in
  let reference_mean := optional (askfloat w mean_prompt (Series_mean data)) in
  find_non_inferiority_margin data reference_mean perform_non_inferiority_test_parametric
  = (searched, Raise e) ->
  is_ValueError e = false ->
  main w
  = ((AskOpenFilename "Select CSV File" (askopenfilename w)
        :: AskFloat median_prompt (Series_median data)
             (optional (askfloat w median_prompt (Series_median data)))
        :: AskFloat mean_prompt (Series_mean data) reference_mean
        :: searched)%list,
     Raise e).
Proof.
  intros Hpath Hread Hcol data reference_mean Hfind He.
  rewrite (main_run w df series Hpath Hread Hcol).
  fold data. rewrite (analyse_run w data). cbv zeta. fold reference_mean.
  rewrite (solve_margin_uncaught data reference_mean searched e Hfind He), bind_Raise.
  reflexivity.
Qed.

(** X3: [main] returns normally in three ways only: the file dialog was
    cancelled; the table has no [Dice] column; or a margin was found for a
    nonzero reference mean, and then the run ends with the plot, the report
    box, and the same text printed.  In particular no run that returns
    normally reports an absent margin. *)
Theorem main_returns_three_ways (w : world) (t : list event) :
  main w = (t, Ok tt) ->
  (askopenfilename w = EmptyString
   /\ t = [AskOpenFilename "Select CSV File" EmptyString;
           ShowInfo "Information" [Lit "No file selected. Exiting."]])
  \/ (exists df,
         read_csv w (askopenfilename w) = Ok df
         /\ has_column "Dice" df = false
         /\ t = [AskOpenFilename "Select CSV File" (askopenfilename w);
                 ShowError "Error"
                   [Lit "'Dice' column not found in the selected file. Exiting."]])
  \/ (exists df series r searched m message,
         read_csv w (askopenfilename w) = Ok df
         /\ column "Dice" df = Ok series
         /\ askfloat w mean_prompt (Series_mean (dropna series)) = Some r
         /\ (r =? 0)%float = false
         /\ find_non_inferiority_margin (dropna series) (VFloat r)
              perform_non_inferiority_test_parametric = (searched, Ok m)
         /\ hist (dropna series) = Ok tt
         /\ t = (AskOpenFilename "Select CSV File" (askopenfilename w)
                   :: AskFloat median_prompt (Series_median (dropna series))
                        (optional (askfloat w median_prompt (Series_median (dropna series))))
                   :: AskFloat mean_prompt (Series_mean (dropna series)) (VFloat r)
                   :: searched
                   ++ [PlotHistogram (dropna series) (VFloat r) (VFloat (r - m)%float) "Mean";
                       ShowInfo "Non-Inferiority Test Result" message;
                       Stdout message])%list).
Proof.
  intros H.
  destruct (String.eqb (askopenfilename w) EmptyString) eqn:Epath.
  - left. apply String.eqb_eq in Epath. split; [exact Epath|].
    rewrite main_parts, select_file_run, bind_Ok, Epath in H.
    inversion H. reflexivity.
  - right. apply String.eqb_neq in Epath.
    destruct (read_csv w (askopenfilename w)) as [df|e] eqn:Eread.
    2:{ rewrite (read_error_surfaces_aux w e Epath Eread) in H. discriminate. }
    destruct (has_column "Dice" df) eqn:Ecol.
    + right. destruct (has_column_column _ _ Ecol) as [series Eseries].
      rewrite (main_run w df series Epath Eread Eseries), (analyse_run w (dropna series)) in H.
      cbv zeta in H.
      destruct (askfloat w mean_prompt (Series_mean (dropna series))) as [r|] eqn:Emean;
        simpl optional in H.
      2:{ rewrite (solve_margin_uncaught (dropna series) VNone [] _
                     (find_without_reference (dropna series)) eq_refl), bind_Raise in H.
          discriminate. }
      destruct (find_non_inferiority_margin (dropna series) (VFloat r)
                  perform_non_inferiority_test_parametric) as [searched [m|e]] eqn:Efind.
      * destruct (r =? 0)%float eqn:Ezero.
        -- rewrite (solve_margin_zero (dropna series) r searched m Efind Ezero), bind_Raise in H.
           discriminate.
        -- rewrite (solve_margin_found (dropna series) r searched m Efind Ezero), bind_Ok in H.
           destruct (hist (dropna series)) as [[]|e] eqn:Ehist.
           2:{ rewrite (report_plot_raises _ _ _ _ _ _ _ _ _ e Ehist) in H. discriminate H. }
           destruct (report_with_margin (dropna series) (Series_mean (dropna series))
                       (Series_std (dropna series)) (Series_median (dropna series))
                       (Series_quantile (dropna series) 0.75
                        - Series_quantile (dropna series) 0.25)%float
                       (optional (askfloat w median_prompt (Series_median (dropna series))))
                       r m (m / r * float_of_Z 100)%float Ehist) as [message [_ [Hreport _]]].
           rewrite Hreport in H.
           cbn [trace outcome fst snd] in H. inversion H.
           exists df, series, r, searched, m, message. repeat split; assumption || reflexivity.
      * destruct (is_ValueError e) eqn:Ee.
        -- destruct e as [msg|msg|msg|msg|msg|msg|msg]; try discriminate Ee.
           rewrite (solve_margin_caught (dropna series) (VFloat r) searched msg Efind),
             bind_Ok, report_without_margin in H.
           discriminate.
        -- rewrite (solve_margin_uncaught (dropna series) (VFloat r) searched e Efind Ee),
             bind_Raise in H.
           discriminate.
    + left. exists df. split; [reflexivity | split; [exact Ecol|]].
      rewrite main_parts, select_file_run, bind_Ok in H.
      apply String.eqb_neq in Epath. rewrite Epath, Eread, bind_lift_Ok, Ecol in H.
      inversion H. reflexivity.
Qed.

(** X4: the answer to the reference-median prompt is for display only.
    Two runs on the same file with the same answer to the reference-mean
    prompt end the same way and produce the same events, except for the
    answer recorded at the median prompt and the text of the report; a
    cancelled median prompt aborts nothing. *)
Theorem median_answer_is_display_only (w1 w2 : world) (df : DataFrame)
    (series : list float) :
  askopenfilename w1 = askopenfilename w2 ->
  askopenfilename w1 <> EmptyString ->
  read_csv w1 (askopenfilename w1) = Ok df ->
  read_csv w2 (askopenfilename w2) = Ok df ->
  column "Dice" df = Ok series ->
  (forall initialvalue,
      askfloat w1 mean_prompt initialvalue = askfloat w2 mean_prompt initialvalue) ->
  let data := dropna series in
  let asked (w : world) :=
    AskFloat median_prompt (Series_median data)
      (optional (askfloat w median_prompt (Series_median data))) in
  exists common report1 report2 ending,
    main w1 = ((AskOpenFilename "Select CSV File" (askopenfilename w1)
                  :: asked w1 :: common ++ report1)%list, ending)
    /\ main w2 = ((AskOpenFilename "Select CSV File" (askopenfilename w1)
                     :: asked w2 :: common ++ report2)%list, ending)
    /\ ((report1 = [] /\ report2 = [])
        \/ exists message1 message2,
             report1 = [ShowInfo "Non-Inferiority Test Result" message1; Stdout message1]
             /\ report2 = [ShowInfo "Non-Inferiority Test Result" message2; Stdout message2]).
Proof.
  intros Hpath Hne Hread1 Hread2 Hcol Hmean data asked.
  assert (Hne2 : askopenfilename w2 <> EmptyString) by (rewrite <- Hpath; exact Hne).
  rewrite (main_run w1 df series Hne Hread1 Hcol), (main_run w2 df series Hne2 Hread2 Hcol).
  rewrite <- Hpath. fold data. rewrite !analyse_run. cbv zeta. rewrite <- Hmean.
  set (reference_mean := optional (askfloat w1 mean_prompt (Series_mean data))).
  set (asked_mean := AskFloat mean_prompt (Series_mean data) reference_mean).
  destruct (solve_margin data reference_mean) as [searched [[margin percentage]|e]].
  - rewrite !bind_Ok.
    destruct (report_shape data (Series_mean data) (Series_std data) (Series_median data)
                (Series_quantile data 0.75 - Series_quantile data 0.25)%float
                reference_mean margin percentage) as [before [[e He] | Hok]].
    + rewrite !He. cbn [trace outcome fst snd].
      exists (asked_mean :: searched ++ before)%list, [], [], (Raise e).
      rewrite !app_nil_r. repeat split. left. split; reflexivity.
    + destruct (Hok (optional (askfloat w1 median_prompt (Series_median data))))
        as [message1 E1].
      destruct (Hok (optional (askfloat w2 median_prompt (Series_median data))))
        as [message2 E2].
      rewrite E1, E2. cbn [trace outcome fst snd].
      exists (asked_mean :: searched ++ before)%list,
        [ShowInfo "Non-Inferiority Test Result" message1; Stdout message1],
        [ShowInfo "Non-Inferiority Test Result" message2; Stdout message2], (Ok tt).
      rewrite <- !app_comm_cons, <- !app_assoc. repeat split.
      right. exists message1, message2. split; reflexivity.
  - rewrite !bind_Raise. cbn [trace outcome fst snd].
    exists (asked_mean :: searched)%list, [], [], (Raise e).
    rewrite !app_nil_r. repeat split. left. split; reflexivity.
Qed.

(** X5: missing cells do not count.  A table whose [Dice] column has
    missing cells gives the same run as a table holding the other cells of
    that column, in the same order. *)
Theorem missing_cells_are_ignored (w1 w2 : world) (df1 df2 : DataFrame)
    (series : list float) :
  askopenfilename w1 = askopenfilename w2 ->
  askopenfilename w1 <> EmptyString ->
  read_csv w1 (askopenfilename w1) = Ok df1 ->
  read_csv w2 (askopenfilename w2) = Ok df2 ->
  column "Dice" df1 = Ok series ->
  column "Dice" df2 = Ok (dropna series) ->
  (forall prompt initialvalue,
      askfloat w1 prompt initialvalue = askfloat w2 prompt initialvalue) ->
  main w1 = main w2.
Proof.
  intros Hpath Hne Hread1 Hread2 Hcol1 Hcol2 Hask.
  assert (Hne2 : askopenfilename w2 <> EmptyString) by (rewrite <- Hpath; exact Hne).
  rewrite (main_run w1 df1 series Hne Hread1 Hcol1),
    (main_run w2 df2 (dropna series) Hne2 Hread2 Hcol2).
  rewrite dropna_idempotent, <- Hpath, (analyse_same_answers w1 w2 _ Hask).
  reflexivity.
Qed.

(** X7: the column guard makes the lookup safe, and both prompts are
    always asked.  For every table with a [Dice] column the lookup
    succeeds, and the run goes on with the reference-median prompt,
    pre-filled with the median of the non-missing cells, then the
    reference-mean prompt, pre-filled with their mean, whatever was
    answered to the first. *)
Theorem guard_makes_lookup_safe (w : world) (df : DataFrame) :
  askopenfilename w <> EmptyString ->
  read_csv w (askopenfilename w) = Ok df ->
  has_column "Dice" df = true ->
  exists series rest,
    column "Dice" df = Ok series
    /\ trace (main w)
       = AskOpenFilename "Select CSV File" (askopenfilename w)
           :: AskFloat median_prompt (Series_median (dropna series))
                (optional (askfloat w median_prompt (Series_median (dropna series))))
           :: AskFloat mean_prompt (Series_mean (dropna series))
                (optional (askfloat w mean_prompt (Series_mean (dropna series))))
           :: rest.
Proof.
  intros Hpath Hread Hcol.
  destruct (has_column_column _ _ Hcol) as [series Hseries].
  exists series. eexists. split; [exact Hseries|].
  rewrite (main_run w df series Hpath Hread Hseries), (analyse_run w (dropna series)).
  reflexivity.
Qed.

(** X8: margin and percentage are absent together.  When the [try]
    statement does not raise, either both are [None], and the diagnostic
    line of the handler is the last thing printed, or both are floats. *)
Theorem margin_and_percentage_together (data : list float) (reference_mean : value)
    (t : list event) (margin percentage : value) :
  solve_margin data reference_mean = (t, Ok (margin, percentage)) ->
  (margin = VNone /\ percentage = VNone
   /\ exists searched msg, t = (searched ++ [failure_line (ValueError msg)])%list)
  \/ (exists x y, margin = VFloat x /\ percentage = VFloat y).
Proof.
  intros H. destruct (solve_margin_inv data reference_mean t margin percentage H)
    as [[searched [msg [_ [Ht [Hm Hp]]]]] | [x [q [y [_ [Hm [_ [_ Hp]]]]]]]].
  - left. repeat split; try assumption. exists searched, msg. exact Ht.
  - right. exists x, y. split; assumption.
Qed.

(** X9: a ValueError of the margin solver or of the root finder never
    leaves [main]: the handler catches it.  Once the file is loaded, the
    only ValueError [main] can end with is one raised by the histogram,
    which is drawn outside the [try] statement, after a margin was
    found. *)
Theorem value_error_comes_from_plot (w : world) (df : DataFrame) (msg : string) :
  read_csv w (askopenfilename w) = Ok df ->
  outcome (main w) = Raise (ValueError msg) ->
  exists series r searched m,
    column "Dice" df = Ok series
    /\ askfloat w mean_prompt (Series_mean (dropna series)) = Some r
    /\ find_non_inferiority_margin (dropna series) (VFloat r)
         perform_non_inferiority_test_parametric = (searched, Ok m)
    /\ hist (dropna series) = Raise (ValueError msg).
Proof.
  intros Eread H.
  assert (Hrun := main_parts w). rewrite select_file_run, bind_Ok in Hrun.
  destruct (String.eqb (askopenfilename w) EmptyString) eqn:Epath.
  { rewrite Hrun in H. discriminate H. }
  rewrite Eread, bind_lift_Ok in Hrun.
  destruct (has_column "Dice" df) eqn:Ecol.
  2:{ rewrite Hrun in H. discriminate H. }
  clear Hrun. apply String.eqb_neq in Epath.
  destruct (has_column_column _ _ Ecol) as [series Eseries].
  rewrite (main_run w df series Epath Eread Eseries), (analyse_run w (dropna series)) in H.
  cbv zeta in H.
  destruct (askfloat w mean_prompt (Series_mean (dropna series))) as [r|] eqn:Emean;
    simpl optional in H.
  2:{ rewrite (solve_margin_uncaught (dropna series) VNone [] _
                 (find_without_reference (dropna series)) eq_refl), bind_Raise in H.
      discriminate H. }
  destruct (find_non_inferiority_margin (dropna series) (VFloat r)
              perform_non_inferiority_test_parametric) as [searched [m|e]] eqn:Efind.
  - destruct (r =? 0)%float eqn:Ezero.
    + rewrite (solve_margin_zero (dropna series) r searched m Efind Ezero), bind_Raise in H.
      discriminate H.
    + rewrite (solve_margin_found (dropna series) r searched m Efind Ezero), bind_Ok in H.
      destruct (hist (dropna series)) as [[]|e] eqn:Ehist.
      * destruct (report_with_margin (dropna series) (Series_mean (dropna series))
                    (Series_std (dropna series)) (Series_median (dropna series))
                    (Series_quantile (dropna series) 0.75
                     - Series_quantile (dropna series) 0.25)%float
                    (optional (askfloat w median_prompt (Series_median (dropna series))))
                    r m (m / r * float_of_Z 100)%float Ehist) as [message [_ [Hreport _]]].
        rewrite Hreport in H. discriminate H.
      * rewrite (report_plot_raises _ _ _ _ _ _ _ _ _ e Ehist) in H.
        cbn [outcome snd] in H. inversion H; subst e.
        exists series, r, searched, m. repeat split; assumption.
  - destruct (is_ValueError e) eqn:Ee.
    + destruct e as [msg'|msg'|msg'|msg'|msg'|msg'|msg']; try discriminate Ee.
      rewrite (solve_margin_caught (dropna series) (VFloat r) searched msg' Efind),
        bind_Ok, report_without_margin in H.
      discriminate H.
    + rewrite (solve_margin_uncaught (dropna series) (VFloat r) searched e Efind Ee),
        bind_Raise in H.
      cbn [outcome snd] in H. inversion H; subst e. discriminate Ee.
Qed.

End Program.

(** ** The theorems at concrete runs

    The library routines are the reference instances; the sample holds
    three observations. *)

(** With reference mean 0.5 both ends of the bracket lie below the
    threshold, the solver raises, and the run ends with the TypeError. *)
Lemma margin_not_found_run :
  outcome (main Reference.ttest_1samp Reference.root_scalar_brentq Reference.hist
             (Reference.a_world Reference.three_dice (Some 0.5%float)))
  = Raise (TypeError "unsupported format string passed to NoneType.__format__").
Proof.
  edestruct (margin_not_found_aborts Reference.ttest_1samp Reference.root_scalar_brentq Reference.hist
               (Reference.a_world Reference.three_dice (Some 0.5%float))
               (Reference.dice_table Reference.three_dice) Reference.three_dice)
    as [_ [_ H]].
  - discriminate.
  - reflexivity.
  - reflexivity.
  - vm_compute. reflexivity.
  - rewrite H. reflexivity.
Defined.

(** The same sample and reference mean: the solver ends with its own
    error. *)
Lemma find_raises_run :
  outcome (find_non_inferiority_margin Reference.root_scalar_brentq
             Reference.three_dice (VFloat 0.5)
             (perform_non_inferiority_test_parametric Reference.ttest_1samp))
  = Raise (ValueError no_sign_change).
Proof.
  apply (proj1 (find_raises_iff_no_sign_change Reference.root_scalar_brentq
                  Reference.three_dice (VFloat 0.5)
                  (perform_non_inferiority_test_parametric Reference.ttest_1samp) _ _
                  (parametric_pure Reference.ttest_1samp Reference.three_dice 0.5%float)
                  ltac:(vm_compute; discriminate))).
  vm_compute. reflexivity.
Defined.


(** ** Brent's method on an objective without effects

    The search keeps a bracket: the current point and a point where the
    objective has the opposite sign.  It stops when the objective vanishes
    at the current point or the bracket is shorter than the tolerance. *)





Lemma opposite_signs_not_zero (a b : float) :
  opposite_signs a b = true -> (b =? 0)%float = false.
Proof.
  unfold opposite_signs. rewrite !FloatAxioms.ltb_spec, FloatAxioms.eqb_spec.
  change (Prim2SF 0) with (S754_zero false).
  destruct (Prim2SF b) as [s | s | | s m e]; try destruct s; simpl;
    rewrite ?andb_false_r; intros H; try discriminate H; reflexivity.
Qed.



Section Brent.

Variable g : float -> float.
Variable f : float -> M float.
Hypothesis f_pure : forall x, f x = ret (g x).







End Brent.

(** ** The solver with Brent's method *)



(** The sample 0.80, 0.85, 0.90 with reference mean 0.84: a margin is
    found, and the report's verdict is "Pass".  With an infinite value in
    the sample the run ends where the histogram is drawn. *)
Lemma verdict_run :
  (let run := main Reference.ttest_1samp Reference.root_scalar_brentq Reference.hist
                (Reference.a_world Reference.three_dice (Some 0.84%float)) in
   exists message,
     In (ShowInfo "Non-Inferiority Test Result" message) (trace run)
     /\ outcome run = Ok tt
     /\ last message (Lit EmptyString) = Lit "Pass")
  /\ outcome (main Reference.ttest_1samp Reference.root_scalar_brentq Reference.hist
                (Reference.a_world Reference.infinite_dice (Some 0.5%float)))
     = Raise (ValueError "supplied range is not finite").
Proof.
  split.
  - edestruct (verdict_is_strict_threshold Reference.ttest_1samp
                 Reference.root_scalar_brentq Reference.hist
                 (Reference.a_world Reference.three_dice (Some 0.84%float))
                 (Reference.dice_table Reference.three_dice) Reference.three_dice
                 0.84%float)
      as [Hplot _].
    + discriminate.
    + reflexivity.
    + reflexivity.
    + reflexivity.
    + reflexivity.
    + vm_compute. reflexivity.
    + destruct (Hplot eq_refl) as [message [Hmain Hlast]].
      cbv zeta. exists message. rewrite Hmain. split; [|split].
      * cbn [trace fst]. apply in_or_app. right. apply in_or_app. right.
        right. left. reflexivity.
      * reflexivity.
      * rewrite Hlast. vm_compute. reflexivity.
  - edestruct (verdict_is_strict_threshold Reference.ttest_1samp
                 Reference.root_scalar_brentq Reference.hist
                 (Reference.a_world Reference.infinite_dice (Some 0.5%float))
                 (Reference.dice_table Reference.infinite_dice) Reference.infinite_dice
                 0.5%float)
      as [_ [Hraise _]].
    + discriminate.
    + reflexivity.
    + reflexivity.
    + reflexivity.
    + reflexivity.
    + vm_compute. reflexivity.
    + rewrite (Hraise _ eq_refl). reflexivity.
Defined.

(** The reference-mean prompt is cancelled. *)
Lemma cancelled_reference_mean_run :
  outcome (main Reference.ttest_1samp Reference.root_scalar_brentq Reference.hist
             (Reference.a_world Reference.three_dice None))
  = Raise (TypeError "unsupported operand type(s) for -: 'NoneType' and 'int'").
Proof.
  destruct (cancelled_reference_mean_aborts Reference.ttest_1samp Reference.root_scalar_brentq Reference.hist
              (Reference.a_world Reference.three_dice None)
              (Reference.dice_table Reference.three_dice) Reference.three_dice
              ltac:(discriminate) eq_refl eq_refl eq_refl) as [_ [_ H]].
  rewrite H. reflexivity.
Defined.

(** The sample 0, 0, 0.9 with reference mean 0: the objective changes sign,
    a margin is found, and the percentage divides by zero. *)
Lemma zero_reference_mean_run :
  outcome (main Reference.ttest_1samp Reference.root_scalar_brentq Reference.hist
             (Reference.a_world [0; 0; 0.9]%float (Some 0%float)))
  = Raise (ZeroDivisionError "float division by zero").
Proof.
  edestruct (zero_reference_mean_aborts Reference.ttest_1samp Reference.root_scalar_brentq Reference.hist
               (Reference.a_world [0; 0; 0.9]%float (Some 0%float))
               (Reference.dice_table [0; 0; 0.9]%float) [0; 0; 0.9]%float 0%float)
    as [_ H].
  - discriminate.
  - reflexivity.
  - reflexivity.
  - reflexivity.
  - reflexivity.
  - vm_compute. reflexivity.
  - rewrite H. reflexivity.
Defined.

(** The cancelled file dialog, and a table without the column. *)
Lemma early_exits_run :
  main Reference.ttest_1samp Reference.root_scalar_brentq Reference.hist Reference.cancelled_world
  = ([AskOpenFilename "Select CSV File" EmptyString;
      ShowInfo "Information" [Lit "No file selected. Exiting."]], Ok tt)
  /\ main Reference.ttest_1samp Reference.root_scalar_brentq Reference.hist Reference.no_dice_world
     = ([AskOpenFilename "Select CSV File" "scores.csv";
         ShowError "Error" [Lit "'Dice' column not found in the selected file. Exiting."]],
        Ok tt).
Proof.
  split.
  - apply (proj1 (main_early_exits Reference.ttest_1samp Reference.root_scalar_brentq Reference.hist
                    Reference.cancelled_world) eq_refl).
  - apply (proj2 (main_early_exits Reference.ttest_1samp Reference.root_scalar_brentq Reference.hist
                    Reference.no_dice_world)
             [("Case", [1; 2; 3]%float); ("Jaccard", [0.7; 0.8; 0.9]%float)]
             ltac:(discriminate) eq_refl eq_refl).
Defined.

(** Two environments that differ away from the chosen file and the two
    prompts give the same run. *)
Lemma same_answers_run :
  main Reference.ttest_1samp Reference.root_scalar_brentq Reference.hist
    (Reference.a_world Reference.three_dice (Some 0.84%float))
  = main Reference.ttest_1samp Reference.root_scalar_brentq Reference.hist
      (Reference.same_answers_world Reference.three_dice (Some 0.84%float)).
Proof.
  apply (main_reads_answers_only Reference.ttest_1samp Reference.root_scalar_brentq Reference.hist
           (Reference.a_world Reference.three_dice (Some 0.84%float))
           (Reference.same_answers_world Reference.three_dice (Some 0.84%float))
           eq_refl eq_refl (fun _ => eq_refl) (fun _ => eq_refl)).
Defined.

(** ** Further properties at concrete runs *)

(** X6: when the two end points of the bracket have the same sign the root
    finder is not consulted: for every root finder the solver prints its
    five diagnostic lines, nothing else, and raises its own error. *)
Theorem same_sign_skips_root_finder
    (root_scalar_brentq : (float -> M float) -> float -> float -> M float)
    (data : list float) (reference_value : value)
    (test_function : list float -> value -> value -> M (float * float))
    (stat pval : float -> float) :
  pure_test data reference_value test_function stat pval ->
  let f := fun m => (pval m - 0.05)%float in
  same_sign (f 0%float) (f 1%float) = true ->
  find_non_inferiority_margin root_scalar_brentq data reference_value test_function
  = (diagnostics f, Raise (ValueError no_sign_change)).
Proof.
  intros Hpure f Hsign.
  assert (E := find_pure root_scalar_brentq data reference_value test_function stat pval Hpure).
  fold f in E.
  assert (Hp : (0 <? f 0 * f 1)%float = true)
    by apply (same_side_product_positive (pval 0%float) (pval 1%float) Hsign).
  rewrite E, Hp. reflexivity.
Qed.

Lemma read_error_run :
  main Reference.ttest_1samp Reference.root_scalar_brentq Reference.hist Reference.unreadable_world
  = ([AskOpenFilename "Select CSV File" "missing.csv"],
     Raise (OSError "No such file or directory")).
Proof.
  apply (read_error_surfaces Reference.ttest_1samp Reference.root_scalar_brentq Reference.hist
           Reference.unreadable_world (OSError "No such file or directory")
           ltac:(discriminate) eq_refl).
Defined.

(** A margin exists for the sample and reference mean 0.84, but the root
    finder gives up. *)
Lemma solver_error_run :
  outcome (main Reference.ttest_1samp Reference.gives_up Reference.hist
             (Reference.a_world Reference.three_dice (Some 0.84%float)))
  = Raise (RuntimeError "Failed to converge after 100 iterations.").
Proof.
  erewrite (solver_error_surfaces Reference.ttest_1samp Reference.gives_up Reference.hist
              (Reference.a_world Reference.three_dice (Some 0.84%float))
              (Reference.dice_table Reference.three_dice) Reference.three_dice).
  - reflexivity.
  - discriminate.
  - reflexivity.
  - reflexivity.
  - vm_compute. reflexivity.
  - reflexivity.
Defined.

(** The run with reference mean 0.84 returns normally, so a margin was
    found. *)
Lemma three_ways_run :
  exists searched m,
    find_non_inferiority_margin Reference.root_scalar_brentq Reference.three_dice
      (VFloat 0.84) (perform_non_inferiority_test_parametric Reference.ttest_1samp)
    = (searched, Ok m).
Proof.
  edestruct (main_returns_three_ways Reference.ttest_1samp Reference.root_scalar_brentq Reference.hist
               (Reference.a_world Reference.three_dice (Some 0.84%float)))
    as [[E _] | [[df [Hr [Hc _]]]
                | [df [series [r [searched [m [message [Hr [Hc [Ha [_ [Hf _]]]]]]]]]]]]].
  - vm_compute. reflexivity.
  - discriminate E.
  - vm_compute in Hr. inversion Hr; subst df. discriminate Hc.
  - vm_compute in Hr. inversion Hr; subst df.
    vm_compute in Hc. inversion Hc; subst series.
    vm_compute in Ha. inversion Ha; subst r.
    exists searched, m. exact Hf.
Defined.

Lemma median_answer_run :
  outcome (main Reference.ttest_1samp Reference.root_scalar_brentq Reference.hist
             (Reference.a_world Reference.three_dice (Some 0.84%float)))
  = outcome (main Reference.ttest_1samp Reference.root_scalar_brentq Reference.hist
               (Reference.no_median_world Reference.three_dice (Some 0.84%float))).
Proof.
  destruct (median_answer_is_display_only Reference.ttest_1samp Reference.root_scalar_brentq Reference.hist
              (Reference.a_world Reference.three_dice (Some 0.84%float))
              (Reference.no_median_world Reference.three_dice (Some 0.84%float))
              (Reference.dice_table Reference.three_dice) Reference.three_dice
              eq_refl ltac:(discriminate) eq_refl eq_refl eq_refl (fun _ => eq_refl))
    as [common [report1 [report2 [ending [E1 [E2 _]]]]]].
  rewrite E1, E2. reflexivity.
Defined.

Lemma missing_cells_run :
  main Reference.ttest_1samp Reference.root_scalar_brentq Reference.hist
    (Reference.a_world Reference.dice_with_gap (Some 0.84%float))
  = main Reference.ttest_1samp Reference.root_scalar_brentq Reference.hist
      (Reference.a_world Reference.three_dice (Some 0.84%float)).
Proof.
  apply (missing_cells_are_ignored Reference.ttest_1samp Reference.root_scalar_brentq Reference.hist
           (Reference.a_world Reference.dice_with_gap (Some 0.84%float))
           (Reference.a_world Reference.three_dice (Some 0.84%float))
           (Reference.dice_table Reference.dice_with_gap)
           (Reference.dice_table Reference.three_dice)
           Reference.dice_with_gap
           eq_refl ltac:(discriminate) eq_refl eq_refl eq_refl eq_refl
           (fun _ _ => eq_refl)).
Defined.

Lemma same_sign_run :
  outcome (find_non_inferiority_margin Reference.gives_up Reference.three_dice (VFloat 0.5)
             (perform_non_inferiority_test_parametric Reference.ttest_1samp))
  = Raise (ValueError no_sign_change).
Proof.
  rewrite (same_sign_skips_root_finder Reference.gives_up Reference.three_dice (VFloat 0.5)
             (perform_non_inferiority_test_parametric Reference.ttest_1samp) _ _
             (parametric_pure Reference.ttest_1samp Reference.three_dice 0.5%float)
             ltac:(vm_compute; reflexivity)).
  reflexivity.
Defined.

Lemma guard_run :
  exists rest,
    trace (main Reference.ttest_1samp Reference.root_scalar_brentq Reference.hist
             (Reference.a_world Reference.three_dice (Some 0.84%float)))
    = AskOpenFilename "Select CSV File" "dice.csv" :: rest.
Proof.
  destruct (guard_makes_lookup_safe Reference.ttest_1samp Reference.root_scalar_brentq Reference.hist
              (Reference.a_world Reference.three_dice (Some 0.84%float))
              (Reference.dice_table Reference.three_dice)
              ltac:(discriminate) eq_refl eq_refl) as [series [rest [_ H]]].
  rewrite H. eexists. reflexivity.
Defined.

Lemma margin_and_percentage_run :
  exists t searched msg,
    solve_margin Reference.ttest_1samp Reference.root_scalar_brentq
      Reference.three_dice (VFloat 0.5) = (t, Ok (VNone, VNone))
    /\ t = (searched ++ [failure_line (ValueError msg)])%list.
Proof.
  eexists.
  edestruct (margin_and_percentage_together Reference.ttest_1samp
               Reference.root_scalar_brentq Reference.three_dice (VFloat 0.5))
    as [[_ [_ [searched [msg Ht]]]] | [x [y [Hm _]]]].
  - vm_compute. reflexivity.
  - exists searched, msg. split; [vm_compute; reflexivity | exact Ht].
  - discriminate Hm.
Defined.

(** The run on a sample with an infinite value ends with a ValueError; it
    is the one of the histogram. *)
Lemma value_error_run :
  Reference.hist (dropna Reference.infinite_dice)
  = Raise (ValueError "supplied range is not finite").
Proof.
  destruct (value_error_comes_from_plot Reference.ttest_1samp Reference.root_scalar_brentq
              Reference.hist
              (Reference.a_world Reference.infinite_dice (Some 0.5%float))
              (Reference.dice_table Reference.infinite_dice)
              "supplied range is not finite" eq_refl)
    as [series [r [searched [m [Hcol [_ [_ Hhist]]]]]]].
  - vm_compute. reflexivity.
  - cbn in Hcol. inversion Hcol; subst series. exact Hhist.
Defined.
